(** * InfrastructureManager: the operation-lifecycle orchestrator

    A shallow embedding of [InfrastructureManager/infrastructure_manager.py].
    Python dictionaries are finite maps from strings to values, exceptions
    are an explicit error result, and the instance state touched by a method
    (the operation store, the cloud backend behind the agents, the random
    source and the threads started with [thread.start_new_thread]) is
    threaded through a small state-and-error monad. *)

From Stdlib Require Import ZArith Ascii Floats.SpecFloat.
From stdpp Require Import gmap strings list fin_maps.

Local Open Scope string_scope.
Local Open Scope list_scope.
Local Open Scope Z_scope.

(** ** Python values *)

(** The values that flow through the manager: JSON-like request parameters,
    responses and operation records.  A Python [dict] with string keys is a
    [gmap string value]; the lists handled by the manager (IP addresses and
    instance ids) are lists of strings.  An [int] or a [long] is an integer,
    a [float] is an IEEE 754 value given by its sign, mantissa and
    exponent. *)
#[local] Set Warnings "-register-all".
Inductive value :=
| VNone
| VBool (b : bool)
| VInt (n : Z)
| VFloat (x : spec_float)
| VStr (s : string)
| VList (l : list string)
| VDict (d : gmap string value).

#[local] Set Warnings "register-all".

Abbreviation dict := (gmap string value).

(** Exceptions, with the text [str(exception)] yields. *)
Inductive exn :=
| AgentConfigurationException (msg : string)
| AgentRuntimeException (msg : string)
| TypeError (msg : string)
| ValueError (msg : string)
| KeyError (msg : string)
| OverflowError (msg : string)
| OtherException (msg : string).

Definition str (e : exn) : string :=
  match e with
  | AgentConfigurationException msg | AgentRuntimeException msg
  | TypeError msg | ValueError msg | KeyError msg | OverflowError msg
  | OtherException msg => msg
  end.

(** The two exception classes named by the [except] clauses of the workers. *)
Definition is_agent_configuration (e : exn) : bool :=
  match e with AgentConfigurationException _ => true | _ => false end.

Definition is_agent_runtime (e : exn) : bool :=
  match e with AgentRuntimeException _ => true | _ => false end.

Inductive result (A : Type) :=
| Ok (a : A)
| Raise (e : exn).
Arguments Ok {A} a.
Arguments Raise {A} e.

(** ** Built-ins used by the manager *)

(** [parameters[key]] *)
Definition getitem (parameters : value) (key : string) : result value :=
  match parameters with
  | VDict d =>
      match d !! key with
      | Some v => Ok v
      | None => Raise (KeyError key)
      end
  | VStr _ => Raise (TypeError "string indices must be integers, not str")
  | VList _ => Raise (TypeError "list indices must be integers, not str")
  | _ => Raise (TypeError "object has no attribute '__getitem__'")
  end.

(** ** [int] on numbers and byte strings *)

(** The manager takes the built-in [int] as a parameter: its theorems hold
    whatever [int] does.  This module gives the conversion of CPython 2.7
    for the examples: a number is truncated towards zero, a byte string
    ([str]) is read as [PyInt_FromString] reads it in base 10, and the
    [ValueError] of a string that is no literal shows its [repr]. *)
Module Python2.

(** [isspace] in the C locale *)
Definition is_space (a : ascii) : bool :=
  let n := nat_of_ascii a in
  ((9 <=? n) && (n <=? 13))%nat || (n =? 32)%nat.

Definition digit_of (a : ascii) : option Z :=
  let n := Z.of_nat (nat_of_ascii a) in
  if (48 <=? n) && (n <=? 57) then Some (n - 48) else None.

Fixpoint lstrip (s : string) : string :=
  match s with
  | String a s' => if is_space a then lstrip s' else s
  | EmptyString => EmptyString
  end.

(** The bytes of a [str] up to its first NUL: what the C code reads. *)
Fixpoint c_string (s : string) : string :=
  match s with
  | String a s' =>
      if (nat_of_ascii a =? 0)%nat then EmptyString
      else String a (c_string s')
  | EmptyString => EmptyString
  end.

(** The decimal digits at the front of [s]: their value, whether there was
    one, and what follows them. *)
Fixpoint digits (s : string) (acc : Z) (seen : bool) : Z * bool * string :=
  match s with
  | String a s' =>
      match digit_of a with
      | Some d => digits s' (10 * acc + d) true
      | None => (acc, seen, s)
      end
  | EmptyString => (acc, seen, s)
  end.

(** A literal, read from a string without leading white space: an optional
    sign, white space, at least one digit, white space. *)
Definition literal (s : string) : option Z :=
  let '(negative, s) :=
    match s with
    | String "-" s' => (true, s')
    | String "+" s' => (false, s')
    | _ => (false, s)
    end in
  let '(n, seen, rest) := digits (lstrip s) 0 false in
  if seen then
    match lstrip rest with
    | EmptyString => Some (if negative then - n else n)
    | _ => None
    end
  else None.

Definition backslash : ascii := ascii_of_nat 92.
Definition single_quote : ascii := ascii_of_nat 39.
Definition double_quote : ascii := ascii_of_nat 34.

Definition hex (n : nat) : ascii :=
  default "0"%char (String.get n "0123456789abcdef").

Definition escape (quote a : ascii) : string :=
  let n := nat_of_ascii a in
  if Ascii.eqb a quote || Ascii.eqb a backslash then
    String backslash (String a EmptyString)
  else if (n =? 9)%nat then String backslash "t"
  else if (n =? 10)%nat then String backslash "n"
  else if (n =? 13)%nat then String backslash "r"
  else if ((n <? 32) || (127 <=? n))%nat then
    String backslash
      (String "x" (String (hex (n / 16)) (String (hex (n mod 16))
                                            EmptyString)))
  else String a EmptyString.

Fixpoint escaped (quote : ascii) (s : string) : string :=
  match s with
  | String a s' => escape quote a +:+ escaped quote s'
  | EmptyString => EmptyString
  end.

Fixpoint has (a : ascii) (s : string) : bool :=
  match s with
  | String b s' => Ascii.eqb a b || has a s'
  | EmptyString => false
  end.

(** [repr(s)] for a [str] *)
Definition repr (s : string) : string :=
  let quote :=
    if has single_quote s && negb (has double_quote s) then double_quote
    else single_quote in
  String quote (escaped quote s +:+ String quote EmptyString).

(** [int(v)] *)
Definition int (v : value) : result Z :=
  match v with
  | VInt n => Ok n
  | VBool b => Ok (if b then 1 else 0)
  | VFloat (S754_zero _) => Ok 0
  | VFloat (S754_finite negative m e) =>
      let n := Z.shiftl (Z.pos m) e in
      Ok (if negative then - n else n)
  | VFloat (S754_infinity _) =>
      Raise (OverflowError "cannot convert float infinity to integer")
  | VFloat S754_nan => Raise (ValueError "cannot convert float NaN to integer")
  | VStr s =>
      let read := lstrip (c_string s) in
      match literal read with
      | Some n =>
          if String.eqb (c_string s) s then Ok n
          else Raise (ValueError "null byte in argument for int()")
      | None =>
          Raise (ValueError
                   ("invalid literal for int() with base 10: "
                    +:+ repr (String.substring 0 200 read)))
      end
  | VNone =>
      Raise (TypeError
               "int() argument must be a string or a number, not 'NoneType'")
  | VList _ =>
      Raise (TypeError
               "int() argument must be a string or a number, not 'list'")
  | VDict _ =>
      Raise (TypeError
               "int() argument must be a string or a number, not 'dict'")
  end.

End Python2.

(** [d[key] = v] on a local variable [d]: the updated value of [d]. *)
Definition setitem (d : value) (key : string) (v : value) : result value :=
  match d with
  | VDict m => Ok (VDict (<[key:=v]> m))
  | _ => Raise (TypeError "object does not support item assignment")
  end.

(** ** The cloud agent interface *)

Module BaseAgent.

Inductive operation := OPERATION_RUN | OPERATION_TERMINATE.

(** Modelled from the spec: [appscale.tools.agents.base_agent] is not part
    of the sources at hand.  An agent is the capability interface of the
    spec (section 6); every call runs against the state [B] of the cloud
    behind it, may change it, and either returns or raises.  Nothing is
    assumed about what an agent does. *)
Record agent (B : Type) := {
  assert_required_parameters :
    value -> operation -> B -> result unit * B;
  configure_instance_security : value -> B -> result value * B;
  run_instances :
    Z -> value -> value -> bool -> B ->
    result (list string * list string * list string) * B;
  describe_instances :
    value -> B -> result (list string * list string * list string) * B;
  terminate_instances : value -> B -> result unit * B;
  attach_disk : value -> value -> value -> B -> result value * B;
  diff : list string -> list string -> list string;
}.
Arguments assert_required_parameters {B}.
Arguments configure_instance_security {B}.
Arguments run_instances {B}.
Arguments describe_instances {B}.
Arguments terminate_instances {B}.
Arguments attach_disk {B}.
Arguments diff {B}.

(** Modelled from the spec: [diff(sequence_a, sequence_b)] is the set
    difference, order-preserving with respect to [sequence_a]. *)
Definition list_diff (sequence_a sequence_b : list string) : list string :=
  filter (λ x, x ∉ sequence_b) sequence_a.

End BaseAgent.

(** ** A scriptable cloud, for examples *)

Module FakeCloud.

Import BaseAgent.

(** An instance is its public IP, its private IP and its id; the cloud is
    the list of the instances that are up. *)
Definition instance : Type := string * string * string.
Definition cloud : Type := list instance.

Definition public_ip (i : instance) : string := i.1.1.
Definition private_ip (i : instance) : string := i.1.2.
Definition instance_id (i : instance) : string := i.2.

Definition fail {A} (e : option exn) (a : A) (c : cloud)
    : result A * cloud :=
  match e with
  | Some e => (Raise e, c)
  | None => (Ok a, c)
  end.

(** An agent whose [run_instances] brings up [launched], loses the
    instances whose id is in [vanished], and then raises [run_error] if
    there is one; [terminate_instances] raises [terminate_error] if there
    is one.  The other calls succeed. *)
Definition fake_agent (launched : list instance) (vanished : list string)
    (run_error terminate_error : option exn) : agent cloud := {|
  assert_required_parameters parameters operation c := (Ok tt, c);
  configure_instance_security parameters c := (Ok (VBool true), c);
  run_instances count parameters security_configured public_ip_needed c :=
    fail run_error
      (instance_id <$> launched, public_ip <$> launched,
       private_ip <$> launched)
      (filter (λ i, instance_id i ∉ vanished) c ++ launched);
  describe_instances parameters c :=
    (Ok (public_ip <$> c, private_ip <$> c, instance_id <$> c), c);
  terminate_instances parameters c := fail terminate_error tt c;
  attach_disk parameters disk_name instance_id c := (Ok (VStr "/dev/sdb"), c);
  diff := list_diff;
|}.

(** Modelled from the spec: [utils.has_parameter] is not part of the
    sources at hand; a required parameter is present when the mapping has
    the key. *)
Definition has_parameter (param : string) (parameters : value)
    : result bool :=
  match parameters with
  | VDict d => Ok (bool_decide (is_Some (d !! param)))
  | _ => Raise (TypeError "parameters is not a dictionary")
  end.

(** A random source that hands out a prescribed sequence of identifiers. *)
Definition get_random_alphanumeric (r : list string)
    : string * list string :=
  match r with
  | s :: r => (s, r)
  | [] => ("", [])
  end.

(** A decoder for callers that pass dictionaries only. *)
Definition json_loads (s : string) : result value :=
  Raise (ValueError "No JSON object could be decoded").

(** One instance that is up before any request, and the one a launch
    brings up. *)
Definition i_a : instance := ("1.1.1.1", "10.0.0.1", "i-a").
Definition i_b : instance := ("2.2.2.2", "10.0.0.2", "i-b").

(** An agent for which every call succeeds. *)
Definition healthy : agent cloud := fake_agent [i_b] [] None None.

(** An agent whose launch brings [i_b] up and then fails. *)
Definition partial : agent cloud :=
  fake_agent [i_b] [] (Some (AgentRuntimeException "quota exceeded")) None.


(** An agent whose [describe_instances] fails as well. *)
Definition blind : agent cloud := {|
  assert_required_parameters parameters operation c := (Ok tt, c);
  configure_instance_security parameters c := (Ok (VBool true), c);
  run_instances count parameters security_configured public_ip_needed c :=
    (Ok (["i-b"], ["2.2.2.2"], ["10.0.0.2"]), c ++ [i_b]);
  describe_instances parameters c :=
    (Raise (AgentRuntimeException "connection refused"), c);
  terminate_instances parameters c := (Ok tt, c);
  attach_disk parameters disk_name instance_id c := (Ok (VStr "/dev/sdb"), c);
  diff := list_diff;
|}.

(** An agent that cannot list an empty cloud, and whose launch brings
    [i_b] up and then fails. *)
Definition waking : agent cloud := {|
  assert_required_parameters parameters operation c := (Ok tt, c);
  configure_instance_security parameters c := (Ok (VBool true), c);
  run_instances count parameters security_configured public_ip_needed c :=
    (Raise (AgentRuntimeException "quota exceeded"), c ++ [i_b]);
  describe_instances parameters c :=
    match c with
    | [] => (Raise (AgentRuntimeException "connection refused"), c)
    | _ => (Ok (public_ip <$> c, private_ip <$> c, instance_id <$> c), c)
    end;
  terminate_instances parameters c := (Ok tt, c);
  attach_disk parameters disk_name instance_id c := (Ok (VStr "/dev/sdb"), c);
  diff := list_diff;
|}.

(** Agents whose [terminate_instances] fails, with a runtime error and
    with a configuration error. *)
Definition stubborn : agent cloud :=
  fake_agent [] [] None (Some (AgentRuntimeException "instance not found")).

Definition unconfigured : agent cloud :=
  fake_agent [] [] None (Some (AgentConfigurationException "bad credentials")).

(** An agent that turns every request down when asked to check its
    parameters, and one whose security setup fails. *)
Definition strict : agent cloud := {|
  assert_required_parameters parameters operation c :=
    (Raise (AgentConfigurationException "no credentials"), c);
  configure_instance_security parameters c := (Ok (VBool true), c);
  run_instances count parameters security_configured public_ip_needed c :=
    (Ok ([], [], []), c);
  describe_instances parameters c :=
    (Ok (public_ip <$> c, private_ip <$> c, instance_id <$> c), c);
  terminate_instances parameters c := (Ok tt, c);
  attach_disk parameters disk_name instance_id c := (Ok (VStr "/dev/sdb"), c);
  diff := list_diff;
|}.

Definition insecure : agent cloud := {|
  assert_required_parameters parameters operation c := (Ok tt, c);
  configure_instance_security parameters c :=
    (Raise (AgentRuntimeException "no such security group"), c);
  run_instances count parameters security_configured public_ip_needed c :=
    (Ok (["i-b"], ["2.2.2.2"], ["10.0.0.2"]), c ++ [i_b]);
  describe_instances parameters c :=
    (Ok (public_ip <$> c, private_ip <$> c, instance_id <$> c), c);
  terminate_instances parameters c := (Ok tt, c);
  attach_disk parameters disk_name instance_id c := (Ok (VStr "/dev/sdb"), c);
  diff := list_diff;
|}.

(** A factory that hands out the same agent for every infrastructure. *)
Definition create_agent (a : agent cloud) (infrastructure : value)
    : result (agent cloud) :=
  Ok a.

End FakeCloud.

Module InfrastructureManager.

Import BaseAgent.

Definition REASON_BAD_SECRET := "bad secret".
Definition REASON_BAD_VM_COUNT := "bad vm count".
Definition REASON_BAD_ARGUMENTS := "bad arguments".
Definition REASON_OPERATION_ID_NOT_FOUND := "operation_id not found".
Definition REASON_NONE := "none".

Definition PARAM_OPERATION_ID := "operation_id".
Definition PARAM_INFRASTRUCTURE := "infrastructure".
Definition PARAM_NUM_VMS := "num_vms".

Definition STATE_PENDING := "pending".
Definition STATE_SUCCESS := "success".
Definition STATE_FAILED := "failed".

Definition DESCRIBE_INSTANCES_REQUIRED_PARAMS := [PARAM_OPERATION_ID].
Definition RUN_INSTANCES_REQUIRED_PARAMS :=
  [PARAM_INFRASTRUCTURE; PARAM_NUM_VMS].
Definition TERMINATE_INSTANCES_REQUIRED_PARAMS := [PARAM_INFRASTRUCTURE].

(** The work handed to [thread.start_new_thread]: a worker and its
    arguments. *)
Inductive task (B : Type) :=
| SpawnVms (a : agent B) (num_vms : Z) (parameters : value)
           (operation_id : string)
| KillVms (a : agent B) (parameters : value) (operation_id : string).
Arguments SpawnVms {B}.
Arguments KillVms {B}.

Definition task_id {B} (t : task B) : string :=
  match t with
  | SpawnVms _ _ _ operation_id | KillVms _ _ operation_id => operation_id
  end.

(** A thread either has not run yet, or has read its record from the
    store (the first statement of both workers) and holds it in the local
    variable [status_info]. *)
Inductive thread (B : Type) :=
| Started (t : task B)
| Fetched (t : task B) (status_info : value).
Arguments Started {B}.
Arguments Fetched {B}.

Definition thread_id {B} (t : thread B) : string :=
  match t with Started t | Fetched t _ => task_id t end.

(** The state a manager works on.  [operation_ids] is the operation store;
    [puts] is a ghost trace of every [put] made on it, oldest first. *)
Record world (B R : Type) := World {
  operation_ids : gmap string value;
  puts : list (string * value);
  backend : B;
  random : R;
  threads : list (thread B);
}.
Arguments World {B R}.
Arguments operation_ids {B R}.
Arguments puts {B R}.
Arguments backend {B R}.
Arguments random {B R}.
Arguments threads {B R}.

(** ** The state-and-error monad *)

Definition M (B R A : Type) : Type := world B R -> result A * world B R.

Definition ret {B R A} (a : A) : M B R A := λ w, (Ok a, w).

Definition raise {B R A} (e : exn) : M B R A := λ w, (Raise e, w).

Definition bind {B R A C} (m : M B R A) (k : A -> M B R C) : M B R C :=
  λ w, match m w with
       | (Ok a, w') => k a w'
       | (Raise e, w') => (Raise e, w')
       end.

Definition lift {B R A} (r : result A) : M B R A := λ w, (r, w).

(** [try: m  except <classes> as exception: handler exception] *)
Definition try_except {B R A} (m : M B R A) (classes : exn -> bool)
    (handler : exn -> M B R A) : M B R A :=
  λ w, match m w with
       | (Ok a, w') => (Ok a, w')
       | (Raise e, w') => if classes e then handler e w' else (Raise e, w')
       end.

Definition set_backend {B R} (b : B) (w : world B R) : world B R :=
  World (operation_ids w) (puts w) b (random w) (threads w).

(** A call on the agent: it runs against the backend. *)
Definition call {B R A} (f : B -> result A * B) : M B R A :=
  λ w, let '(r, b) := f (backend w) in (r, set_backend b w).

(** [m] touches nothing but the backend, and what it returns satisfies
    [Q]. *)
Definition returns {B R A} (m : M B R A) (Q : A -> Prop) : Prop :=
  ∀ w, ∃ b, (m w).2 = set_backend b w ∧
            match (m w).1 with
            | Ok a => Q a
            | Raise _ => True
            end.

Notation "x <- m ;; k" := (bind m (λ x, k))
  (at level 100, m at next level, right associativity, only parsing).

(** Modelled from the spec: [utils.persistent_dictionary] is not part of
    the sources at hand.  The operation store is the persistent mapping of
    the spec (section 6) with [get], [put] and [has_key]; the store owns
    the records, so [get] hands out a copy and a record changes in the
    store only through [put].  A key that is absent reads as [None], a key
    that cannot be hashed is a [TypeError]. *)
Module PersistentDictionary.

Definition lookup {B R} (key : value) (w : world B R)
    : result (option value) :=
  match key with
  | VStr k => Ok (operation_ids w !! k)
  | VList _ | VDict _ => Raise (TypeError "unhashable type")
  | _ => Ok None
  end.

Definition put {B R} (key : string) (v : value) : M B R unit :=
  λ w, (Ok tt, World (<[key:=v]> (operation_ids w)) (puts w ++ [(key, v)])
                     (backend w) (random w) (threads w)).

Definition get {B R} (key : value) : M B R value :=
  λ w, match lookup key w with
       | Ok o => (Ok (default VNone o), w)
       | Raise e => (Raise e, w)
       end.

Definition has_key {B R} (key : value) : M B R bool :=
  λ w, match lookup key w with
       | Ok o => (Ok (bool_decide (is_Some o)), w)
       | Raise e => (Raise e, w)
       end.

End PersistentDictionary.

(** [thread.start_new_thread(worker, args)] *)
Definition start_new_thread {B R} (t : task B) : M B R unit :=
  λ w, (Ok tt, World (operation_ids w) (puts w) (backend w) (random w)
                     (threads w ++ [Started t])).

Section Manager.

Context {B R : Type}.

(** What the sources at hand do not contain is taken as a parameter:
    the helpers of [utils] ([has_parameter] and the random source behind
    [get_random_alphanumeric]; [utils.log] only writes log lines and is
    left out), [json.loads], and the fields of [self] set up by
    [__init__]: [self.blocking], [self.secret] and the agent factory.
    The built-in [int] is a parameter as well: it is whatever Python does
    on the value it is given, and nothing is assumed of it. *)
Variable has_parameter : string -> value -> result bool.
Variable get_random_alphanumeric : R -> string * R.
Variable json_loads : string -> result value.
Variable int : value -> result Z.
Variable self_blocking : bool.
Variable self_secret : string.
Variable create_agent : value -> result (agent B).

Local Abbreviation M := (M B R).

Definition random_alphanumeric : M string :=
  λ w, let '(s, r) := get_random_alphanumeric (random w) in
       (Ok s, World (operation_ids w) (puts w) (backend w) r (threads w)).

(** [__generate_response]: the entries of [extra] are assigned last. *)
Definition generate_response (status : bool) (msg : string)
    (extra : option dict) : value :=
  let response : dict :=
    <["reason" := VStr msg]> (<["success" := VBool status]> ∅) in
  match extra with
  | Some extra => VDict (extra ∪ response)
  | None => VDict response
  end.

(** [__validate_args] *)
Definition validate_args (parameters secret : value)
    : result (value * string) :=
  match parameters with
  | VStr _ | VDict _ =>
      match secret with
      | VStr secret =>
          match parameters with
          | VStr s =>
              match json_loads s with
              | Ok parameters => Ok (parameters, secret)
              | Raise e => Raise e
              end
          | _ => Ok (parameters, secret)
          end
      | _ =>
          Raise (TypeError "Invalid data type for secret. Must be a string.")
      end
  | _ =>
      Raise (TypeError
        "Invalid data type for parameters. Must be a JSON string or a dictionary.")
  end.

(** The loop [for param in REQUIRED: if not utils.has_parameter(...):
    return ...]: the first required parameter that is missing. *)
Fixpoint first_missing (required : list string) (parameters : value)
    : result (option string) :=
  match required with
  | [] => Ok None
  | param :: required =>
      match has_parameter param parameters with
      | Ok true => first_missing required parameters
      | Ok false => Ok (Some param)
      | Raise e => Raise e
      end
  end.

(** [describe_operation] *)
Definition describe_operation (parameters secret : value) : M value :=
  args <- lift (validate_args parameters secret) ;;
  let '(parameters, secret) := args in
  if negb (String.eqb self_secret secret) then
    ret (generate_response false REASON_BAD_SECRET None)
  else
    missing <- lift (first_missing DESCRIBE_INSTANCES_REQUIRED_PARAMS
                       parameters) ;;
    match missing with
    | Some param => ret (generate_response false ("no " +:+ param) None)
    | None =>
        operation_id <- lift (getitem parameters PARAM_OPERATION_ID) ;;
        known <- PersistentDictionary.has_key operation_id ;;
        if (known : bool) then PersistentDictionary.get operation_id
        else ret (generate_response false REASON_OPERATION_ID_NOT_FOUND
                    None)
    end.

(** [__describe_vms] *)
Definition describe_vms (a : agent B) (parameters : value)
    : M (list string * list string * list string) :=
  try_except (call (describe_instances a parameters))
    (λ e, is_agent_configuration e || is_agent_runtime e)
    (λ exception, ret ([], [], [])).

Definition vm_info (public_ips private_ips instance_ids : list string)
    : value :=
  VDict (<["public_ips" := VList public_ips]>
         (<["private_ips" := VList private_ips]>
          (<["instance_ids" := VList instance_ids]> ∅))).

(** [__spawn_vms], the [try] statement and the final [put]:
    [status_info] is the record read from the store and [active_*] the
    inventory taken before the launch. *)
Definition spawn_vms_launch (a : agent B) (num_vms : Z)
    (parameters : value) (operation_id : string) (status_info : value)
    (active_public_ips active_private_ips active_instances : list string)
    : M unit :=
  status_info <-
    try_except
      (security_configured <-
         call (configure_instance_security a parameters) ;;
       instance_info <-
         call (BaseAgent.run_instances a num_vms parameters
                 security_configured false) ;;
       let '(ids, public_ips, private_ips) := instance_info in
       status_info <-
         lift (setitem status_info "state" (VStr STATE_SUCCESS)) ;;
       status_info <-
         lift (setitem status_info "vm_info"
                 (vm_info public_ips private_ips ids)) ;;
       ret status_info)
      (λ e, is_agent_configuration e || is_agent_runtime e)
      (λ exception,
       described <- describe_vms a parameters ;;
       let '(public_ips, private_ips, instance_ids) := described in
       let public_ips := diff a public_ips active_public_ips in
       status_info <-
         match public_ips with
         | _ :: _ =>
             let private_ips := diff a private_ips active_private_ips in
             let instance_ids := diff a instance_ids active_instances in
             status_info <-
               lift (setitem status_info "state" (VStr STATE_SUCCESS)) ;;
             lift (setitem status_info "vm_info"
                     (vm_info public_ips private_ips instance_ids))
         | [] => lift (setitem status_info "state" (VStr STATE_FAILED))
         end ;;
       status_info <- lift (setitem status_info "success" (VBool false)) ;;
       status_info <-
         lift (setitem status_info "reason" (VStr (str exception))) ;;
       ret status_info) ;;
  PersistentDictionary.put operation_id status_info.

(** [__spawn_vms], from its second statement on. *)
Definition spawn_vms_from (a : agent B) (num_vms : Z) (parameters : value)
    (operation_id : string) (status_info : value) : M unit :=
  active <- describe_vms a parameters ;;
  let '(active_public_ips, active_private_ips, active_instances) :=
    active in
  spawn_vms_launch a num_vms parameters operation_id status_info
    active_public_ips active_private_ips active_instances.

(** [__spawn_vms] *)
Definition spawn_vms (a : agent B) (num_vms : Z) (parameters : value)
    (operation_id : string) : M unit :=
  status_info <- PersistentDictionary.get (VStr operation_id) ;;
  spawn_vms_from a num_vms parameters operation_id status_info.

(** [__kill_vms], from its second statement on. *)
Definition kill_vms_from (a : agent B) (parameters : value)
    (operation_id : string) (status_info : value) : M unit :=
  status_info <-
    try_except
      (_ <- call (BaseAgent.terminate_instances a parameters) ;;
       lift (setitem status_info "state" (VStr STATE_SUCCESS)))
      is_agent_runtime
      (λ exception,
       status_info <-
         lift (setitem status_info "state" (VStr STATE_FAILED)) ;;
       lift (setitem status_info "reason" (VStr (str exception)))) ;;
  PersistentDictionary.put operation_id status_info.

(** [__kill_vms] *)
Definition kill_vms (a : agent B) (parameters : value)
    (operation_id : string) : M unit :=
  status_info <- PersistentDictionary.get (VStr operation_id) ;;
  kill_vms_from a parameters operation_id status_info.

(** [run_instances] *)
Definition run_instances (parameters secret : value) : M value :=
  args <- lift (validate_args parameters secret) ;;
  let '(parameters, secret) := args in
  if negb (String.eqb self_secret secret) then
    ret (generate_response false REASON_BAD_SECRET None)
  else
    missing <- lift (first_missing RUN_INSTANCES_REQUIRED_PARAMS
                       parameters) ;;
    match missing with
    | Some param => ret (generate_response false ("no " +:+ param) None)
    | None =>
        num_vms <- lift (getitem parameters PARAM_NUM_VMS) ;;
        num_vms <- lift (int num_vms) ;;
        if num_vms <=? 0 then
          ret (generate_response false REASON_BAD_VM_COUNT None)
        else
          infrastructure <-
            lift (getitem parameters PARAM_INFRASTRUCTURE) ;;
          a <- lift (create_agent infrastructure) ;;
          rejected <-
            try_except
              (_ <- call (assert_required_parameters a parameters
                            OPERATION_RUN) ;;
               ret None)
              is_agent_configuration
              (λ exception,
               ret (Some (generate_response false (str exception)
                            None))) ;;
          match rejected with
          | Some response => ret response
          | None =>
              operation_id <- random_alphanumeric ;;
              let status_info :=
                VDict {[ "success" := VBool true;
                         "reason" := VStr "received run request";
                         "state" := VStr STATE_PENDING;
                         "vm_info" := VNone ]} in
              _ <- PersistentDictionary.put operation_id status_info ;;
              _ <- (if self_blocking then
                      spawn_vms a num_vms parameters operation_id
                    else
                      start_new_thread
                        (SpawnVms a num_vms parameters operation_id)) ;;
              ret (generate_response true REASON_NONE
                     (Some {[ "operation_id" := VStr operation_id ]}))
          end
    end.

(** [terminate_instances] *)
Definition terminate_instances (parameters secret : value) : M value :=
  args <- lift (validate_args parameters secret) ;;
  let '(parameters, secret) := args in
  if negb (String.eqb self_secret secret) then
    ret (generate_response false REASON_BAD_SECRET None)
  else
    missing <- lift (first_missing TERMINATE_INSTANCES_REQUIRED_PARAMS
                       parameters) ;;
    match missing with
    | Some param => ret (generate_response false ("no " +:+ param) None)
    | None =>
        infrastructure <- lift (getitem parameters PARAM_INFRASTRUCTURE) ;;
        a <- lift (create_agent infrastructure) ;;
        rejected <-
          try_except
            (_ <- call (assert_required_parameters a parameters
                          OPERATION_TERMINATE) ;;
             ret None)
            is_agent_configuration
            (λ exception,
             ret (Some (generate_response false (str exception) None))) ;;
        match rejected with
        | Some response => ret response
        | None =>
            operation_id <- random_alphanumeric ;;
            let status_info :=
              VDict {[ "success" := VBool true;
                       "reason" := VStr "received kill request";
                       "state" := VStr STATE_PENDING ]} in
            _ <- PersistentDictionary.put operation_id status_info ;;
            _ <- (if self_blocking then
                    kill_vms a parameters operation_id
                  else
                    start_new_thread (KillVms a parameters operation_id)) ;;
            ret (generate_response true REASON_NONE
                   (Some {[ "operation_id" := VStr operation_id ]}))
        end
    end.

(** [attach_disk] *)
Definition attach_disk (parameters disk_name instance_id secret : value)
    : M value :=
  args <- lift (validate_args parameters secret) ;;
  let '(parameters, secret) := args in
  if negb (String.eqb self_secret secret) then
    ret (generate_response false REASON_BAD_SECRET None)
  else
    infrastructure <- lift (getitem parameters PARAM_INFRASTRUCTURE) ;;
    a <- lift (create_agent infrastructure) ;;
    disk_location <-
      call (BaseAgent.attach_disk a parameters disk_name instance_id) ;;
    ret (generate_response true REASON_NONE
           (Some {[ "location" := disk_location ]})).

(** ** The manager as a transition system *)

(** A request made on the manager's public interface. *)
Inductive request :=
| DescribeOperation (parameters secret : value)
| RunInstances (parameters secret : value)
| TerminateInstances (parameters secret : value)
| AttachDisk (parameters disk_name instance_id secret : value).

Definition serve (r : request) : M value :=
  match r with
  | DescribeOperation parameters secret =>
      describe_operation parameters secret
  | RunInstances parameters secret => run_instances parameters secret
  | TerminateInstances parameters secret =>
      terminate_instances parameters secret
  | AttachDisk parameters disk_name instance_id secret =>
      attach_disk parameters disk_name instance_id secret
  end.

Definition set_threads (ts : list (thread B)) (w : world B R)
    : world B R :=
  World (operation_ids w) (puts w) (backend w) (random w) ts.

(** The first statement of a worker: read the record. *)
Definition fetch (t : task B) : M value :=
  PersistentDictionary.get (VStr (task_id t)).

(** The rest of a worker. *)
Definition resume (t : task B) (status_info : value) : M unit :=
  match t with
  | SpawnVms a num_vms parameters operation_id =>
      spawn_vms_from a num_vms parameters operation_id status_info
  | KillVms a parameters operation_id =>
      kill_vms_from a parameters operation_id status_info
  end.

(** The steps threads take: a started thread reads its record, or a
    thread that has read its record runs the rest of its worker and
    ends.  A thread whose worker raises ends as well.  A worker touches the
    store twice, with the [get] of its first statement and the [put] of
    its last one, and these are separate steps here; the calls on the
    agent in between are taken together with the [put], since they act on
    the backend only. *)
Inductive thread_step : world B R -> world B R -> Prop :=
| step_fetch t (ts1 ts2 : list (thread B)) w :
    threads w = ts1 ++ Started t :: ts2 ->
    thread_step w
      (match fetch t w with
       | (Ok status_info, w') =>
           set_threads (ts1 ++ Fetched t status_info :: ts2) w'
       | (Raise _, w') => set_threads (ts1 ++ ts2) w'
       end)
| step_resume t status_info (ts1 ts2 : list (thread B)) w :
    threads w = ts1 ++ Fetched t status_info :: ts2 ->
    thread_step w (resume t status_info (set_threads (ts1 ++ ts2) w)).2.

(** One step of the system: the manager serves a request to its end (in
    blocking mode this includes the worker), or some thread takes a
    step.  Threads take their steps in any order, between requests and
    between each other's steps. *)
Inductive step : world B R -> world B R -> Prop :=
| step_serve r w : step w (serve r w).2
| step_thread w w' : thread_step w w' -> step w w'.

Definition initial (b : B) (r : R) : world B R := World ∅ [] b r [].

(** ** Operation records *)

Definition state (record : value) : option value :=
  match record with
  | VDict d => d !! "state"
  | _ => None
  end.

Definition pending (record : value) : Prop :=
  state record = Some (VStr STATE_PENDING).

Definition terminal (record : value) : Prop :=
  state record = Some (VStr STATE_SUCCESS) ∨
  state record = Some (VStr STATE_FAILED).

(** The records put under [operation_id] so far, oldest first. *)
Definition puts_to (operation_id : string) (w : world B R) : list value :=
  (filter (λ kv, kv.1 = operation_id) (puts w)).*2.

(** The life of one operation id: nothing was ever put under it and the
    store does not have it; or one pending record was put and is in the
    store; or a pending and then a terminal record were put and the
    terminal one is in the store. *)
Definition lifecycle (operation_id : string) (w : world B R) : Prop :=
  match puts_to operation_id w with
  | [] => operation_ids w !! operation_id = None
  | [r0] => pending r0 ∧ operation_ids w !! operation_id = Some r0
  | [r0; r1] =>
      pending r0 ∧ terminal r1 ∧
      operation_ids w !! operation_id = Some r1
  | _ => False
  end.

(** The first [put] made between [w] and [w'], if there is one, is to a
    key the store of [w] does not have. *)
Definition allocates_fresh (w w' : world B R) : Prop :=
  ∀ k v rest, puts w' = puts w ++ (k, v) :: rest ->
              operation_ids w !! k = None.

(** The worlds reached from an empty store when every request that is
    served puts its first record under a key that is not in the store. *)
Inductive reachable_fresh (b : B) (r : R) : world B R -> Prop :=
| fresh_initial : reachable_fresh b r (initial b r)
| fresh_serve q w :
    reachable_fresh b r w ->
    allocates_fresh w (serve q w).2 ->
    reachable_fresh b r (serve q w).2
| fresh_thread w w' :
    reachable_fresh b r w ->
    thread_step w w' ->
    reachable_fresh b r w'.

(** The invariant behind the life cycle: every operation id has the life
    cycle above, no two threads work on the same operation id, and the
    operation id a thread works on has had one record put so far. *)
Definition consistent (w : world B R) : Prop :=
  (∀ operation_id, lifecycle operation_id w) ∧
  NoDup (thread_id <$> threads w) ∧
  ∀ th, th ∈ threads w -> ∃ r0, puts_to (thread_id th) w = [r0].

(** The worlds reached from an empty store, whatever the random source
    hands out. *)
Inductive reachable (b : B) (r : R) : world B R -> Prop :=
| reachable_initial : reachable b r (initial b r)
| reachable_step w w' : reachable b r w -> step w w' -> reachable b r w'.


Definition request_parameters (q : request) : value :=
  match q with
  | DescribeOperation parameters _ | RunInstances parameters _
  | TerminateInstances parameters _ | AttachDisk parameters _ _ _ =>
      parameters
  end.

Definition request_secret (q : request) : value :=
  match q with
  | DescribeOperation _ secret | RunInstances _ secret
  | TerminateInstances _ secret | AttachDisk _ _ _ secret => secret
  end.

(** ** Worlds and requests over the scriptable cloud, for examples *)

Definition run_request : value :=
  VDict {[ "infrastructure" := VStr "test"; "num_vms" := VStr "2" ]}.

Definition kill_request : value :=
  VDict {[ "infrastructure" := VStr "test" ]}.

Definition run_record : value :=
  VDict {[ "success" := VBool true;
           "reason" := VStr "received run request";
           "state" := VStr "pending";
           "vm_info" := VNone ]}.

Definition kill_record : value :=
  VDict {[ "success" := VBool true;
           "reason" := VStr "received kill request";
           "state" := VStr "pending" ]}.

(** The world of a manager that has just been created: nothing in the
    store, [i_a] up in the cloud, and the identifiers [ids] to come from
    the random source. *)
Definition fresh_world (ids : list string)
    : world FakeCloud.cloud (list string) :=
  World ∅ [] [FakeCloud.i_a] ids [].

(** A world whose store has [record] under ["abc"]. *)
Definition world_with (record : value)
    : world FakeCloud.cloud (list string) :=
  World {[ "abc" := record ]} [("abc", record)] [FakeCloud.i_a] [] [].

(** ** Unfolding the monad *)

Ltac monad :=
  unfold bind, ret, raise, lift, try_except, call, random_alphanumeric,
    start_new_thread, PersistentDictionary.put, PersistentDictionary.get,
    PersistentDictionary.has_key in *.

Lemma eqb_secret_ne (secret : string) :
  secret ≠ self_secret -> String.eqb self_secret secret = false.
Proof. intros Hne. apply String.eqb_neq. congruence. Qed.

Lemma validate_args_mapping (parameters : value) (d : dict)
    (secret : string) :
  parameters = VDict d ∨
  (∃ s, parameters = VStr s ∧ json_loads s = Ok (VDict d)) ->
  validate_args parameters (VStr secret) = Ok (VDict d, secret).
Proof.
  intros [-> | (s & -> & Hs)]; simpl; [done | by rewrite Hs].
Qed.

(** ** Authentication *)

(** C6: a call to [describe_operation], [run_instances],
    [terminate_instances] or [attach_disk] whose parameters are a
    mapping, or a JSON string that decodes to one, and whose secret is a
    string other than the manager's, returns
    [{success: False, reason: 'bad secret'}] whatever the mapping holds
    and leaves the world as it was: no record is created. *)
Theorem bad_secret_is_rejected (q : request) (d : dict) (secret : string)
    (w : world B R) :
  request_secret q = VStr secret ->
  secret ≠ self_secret ->
  request_parameters q = VDict d ∨
  (∃ s, request_parameters q = VStr s ∧ json_loads s = Ok (VDict d)) ->
  serve q w =
    (Ok (VDict {[ "success" := VBool false;
                  "reason" := VStr "bad secret" ]}), w).
Proof.
  intros Hsecret Hne Hparameters.
  apply (validate_args_mapping _ _ secret) in Hparameters.
  apply eqb_secret_ne in Hne.
  destruct q; simpl in *; subst;
    unfold describe_operation, run_instances, terminate_instances,
      attach_disk; monad; rewrite Hparameters, Hne; reflexivity.
Qed.

(** ** Reading an operation *)

Lemma describe_operation_keeps_world (parameters secret : value)
    (w : world B R) :
  (describe_operation parameters secret w).2 = w.
Proof.
  unfold describe_operation. monad.
  unfold PersistentDictionary.lookup.
  repeat case_match; simplify_eq/=; done.
Qed.

(** C9: [describe_operation] is read-only and idempotent.  It leaves the
    world as it was (in particular it puts nothing in the store), so a
    second call with the same arguments returns what the first returned;
    and its answer is a function of the store alone: as long as no worker
    has put a record in between, two calls return the same record, or the
    same 'operation_id not found' response. *)
Theorem describe_operation_read_only (parameters secret : value)
    (w : world B R) :
  (describe_operation parameters secret w).2 = w ∧
  describe_operation parameters secret
    (describe_operation parameters secret w).2 =
  describe_operation parameters secret w ∧
  (∀ w' : world B R,
     operation_ids w' = operation_ids w ->
     (describe_operation parameters secret w').1 =
     (describe_operation parameters secret w).1) ∧
  (∀ (d : dict) (operation_id : string),
     validate_args parameters secret = Ok (VDict d, self_secret) ->
     has_parameter PARAM_OPERATION_ID (VDict d) = Ok true ->
     d !! PARAM_OPERATION_ID = Some (VStr operation_id) ->
     (describe_operation parameters secret w).1 =
     Ok (match operation_ids w !! operation_id with
         | Some record => record
         | None =>
             VDict {[ "success" := VBool false;
                      "reason" := VStr "operation_id not found" ]}
         end)).
Proof.
  split; [apply describe_operation_keeps_world|].
  split; [by rewrite describe_operation_keeps_world|]. split.
  - intros w' Hstore. destruct w, w'. simpl in Hstore. subst.
    unfold describe_operation. monad.
    unfold PersistentDictionary.lookup. simpl.
    repeat case_match; simplify_eq/=; try done; congruence.
  - intros d operation_id Hargs Hhas Hid.
    unfold describe_operation. monad. rewrite Hargs. simpl.
    rewrite String.eqb_refl. simpl. rewrite Hhas. simpl.
    unfold PARAM_OPERATION_ID in *. rewrite Hid. simpl.
    destruct (operation_ids w !! operation_id) as [record|] eqn:Hrecord;
      simpl; rewrite ?Hrecord; reflexivity.
Qed.

(** ** Validation of the instance count *)

(** C5 (amended): a [run_instances] request with the manager's secret and
    both required parameters present whose [num_vms] converts to an integer
    that is zero or negative is answered with
    [{success: False, reason: 'bad vm count'}]; when [num_vms] does not
    convert, the error raised by [int] reaches the caller instead of a
    response.  Either way the world is as it was: no record is created. *)
Theorem bad_vm_count (parameters secret checked num_vms : value)
    (w : world B R) :
  validate_args parameters secret = Ok (checked, self_secret) ->
  has_parameter PARAM_INFRASTRUCTURE checked = Ok true ->
  has_parameter PARAM_NUM_VMS checked = Ok true ->
  getitem checked PARAM_NUM_VMS = Ok num_vms ->
  (∀ n : Z, int num_vms = Ok n -> n <= 0 ->
     run_instances parameters secret w =
       (Ok (VDict {[ "success" := VBool false;
                     "reason" := VStr "bad vm count" ]}), w)) ∧
  (∀ e : exn, int num_vms = Raise e ->
     run_instances parameters secret w = (Raise e, w)).
Proof.
  intros Hargs Hinfrastructure Hnum_vms Hget.
  split; [intros n Hint Hn | intros e Hint];
    unfold run_instances; monad; rewrite Hargs; simpl;
    rewrite String.eqb_refl; simpl;
    rewrite Hinfrastructure, Hnum_vms, Hget, Hint; [|reflexivity].
  apply Z.leb_le in Hn. rewrite Hn. reflexivity.
Qed.

(** ** The run worker *)

(** C8: when the agent's [describe_instances] raises a configuration or
    runtime error as the run worker takes its baseline, the error is not
    raised: the baseline is three empty sequences and the worker goes on.
    It sets up security and launches on the backend as the failed call
    left it.  When the launch returns, the worker returns having put the
    record with ['state'] = ['success'] and the sequences of the launch;
    when the launch raises a configuration or runtime error, the worker
    returns having put the record of the reconciliation, whose diffs are
    taken against empty sequences and whose ['reason'] is the error of the
    launch. *)
Theorem baseline_defaults_to_empty (a : agent B) (num_vms : Z)
    (parameters : value) (operation_id : string) (record : dict)
    (w : world B R) (e : exn) (b : B) :
  operation_ids w !! operation_id = Some (VDict record) ->
  describe_instances a parameters (backend w) = (Raise e, b) ->
  is_agent_configuration e || is_agent_runtime e = true ->
  describe_vms a parameters w = (Ok ([], [], []), set_backend b w) ∧
  (∀ (security_configured : value) (b2 b3 : B)
     (ids public_ips private_ips : list string),
     configure_instance_security a parameters b =
       (Ok security_configured, b2) ->
     BaseAgent.run_instances a num_vms parameters security_configured false
       b2 = (Ok (ids, public_ips, private_ips), b3) ->
     let final :=
       VDict (<["vm_info" :=
                  VDict {[ "public_ips" := VList public_ips;
                           "private_ips" := VList private_ips;
                           "instance_ids" := VList ids ]}]>
                (<["state" := VStr "success"]> record)) in
     spawn_vms a num_vms parameters operation_id w =
       (Ok tt,
        World (<[operation_id := final]> (operation_ids w))
          (puts w ++ [(operation_id, final)]) b3 (random w) (threads w))) ∧
  (∀ (security_configured : value) (b2 b3 b4 : B) (e' : exn)
     (public_ips private_ips instance_ids : list string),
     configure_instance_security a parameters b =
       (Ok security_configured, b2) ->
     BaseAgent.run_instances a num_vms parameters security_configured false
       b2 = (Raise e', b3) ->
     is_agent_configuration e' || is_agent_runtime e' = true ->
     describe_instances a parameters b3 =
       (Ok (public_ips, private_ips, instance_ids), b4) ->
     let final :=
       VDict
         (<["reason" := VStr (str e')]>
            (<["success" := VBool false]>
               (match diff a public_ips [] with
                | _ :: _ =>
                    <["vm_info" :=
                        VDict
                          {[ "public_ips" := VList (diff a public_ips []);
                             "private_ips" := VList (diff a private_ips []);
                             "instance_ids" :=
                               VList (diff a instance_ids []) ]}]>
                      (<["state" := VStr "success"]> record)
                | [] => <["state" := VStr "failed"]> record
                end))) in
     spawn_vms a num_vms parameters operation_id w =
       (Ok tt,
        World (<[operation_id := final]> (operation_ids w))
          (puts w ++ [(operation_id, final)]) b4 (random w) (threads w))).
Proof.
  intros Hrecord Hdescribe Hclass.
  assert (Hvms : describe_vms a parameters w =
                 (Ok ([], [], []), set_backend b w)).
  { unfold describe_vms. monad. rewrite Hdescribe, Hclass. reflexivity. }
  split; [exact Hvms|]. split.
  - intros security_configured b2 b3 ids public_ips private_ips
      Hconfigure Hrun final.
    unfold spawn_vms, spawn_vms_from, spawn_vms_launch. monad.
    unfold PersistentDictionary.lookup. rewrite Hrecord. simpl.
    rewrite Hvms. simpl. rewrite Hconfigure. simpl. rewrite Hrun.
    reflexivity.
  - intros security_configured b2 b3 b4 e' public_ips private_ips
      instance_ids Hconfigure Hrun Hclass' Hagain final.
    unfold spawn_vms, spawn_vms_from, spawn_vms_launch. monad.
    unfold PersistentDictionary.lookup. rewrite Hrecord. simpl.
    rewrite Hvms. simpl. rewrite Hconfigure. simpl. rewrite Hrun, Hclass'.
    unfold describe_vms, try_except, call. simpl. rewrite Hagain.
    subst final. destruct (diff a public_ips []); reflexivity.
Qed.

(** C1: when the agent's [run_instances] raises a configuration or runtime
    error, the run worker takes the inventory again and diffs the public
    IPs against the baseline.  If the difference is not empty it puts the
    record with ['state'] = ['success'], ['success'] = [False], ['reason']
    the text of the error and ['vm_info'] made of the three diffs (public
    IPs, private IPs, instance ids, each the later inventory minus the
    baseline); if it is empty it puts the record with ['state'] =
    ['failed'], ['success'] = [False], ['reason'] the text of the error and
    ['vm_info'] as it was read ([None] for the record a submission
    creates). *)
Theorem partial_failure_is_reconciled (a : agent B) (num_vms : Z)
    (parameters : value) (operation_id : string) (record : dict)
    (w w1 w4 : world B R)
    (active_public_ips active_private_ips active_instances : list string)
    (security_configured : value) (b2 b3 : B) (e : exn)
    (public_ips private_ips instance_ids : list string) :
  operation_ids w !! operation_id = Some (VDict record) ->
  describe_vms a parameters w =
    (Ok (active_public_ips, active_private_ips, active_instances), w1) ->
  configure_instance_security a parameters (backend w1) =
    (Ok security_configured, b2) ->
  BaseAgent.run_instances a num_vms parameters security_configured false b2 =
    (Raise e, b3) ->
  is_agent_configuration e || is_agent_runtime e = true ->
  describe_vms a parameters (set_backend b3 w1) =
    (Ok (public_ips, private_ips, instance_ids), w4) ->
  let partial : dict :=
    <["reason" := VStr (str e)]>
      (<["success" := VBool false]>
         (<["vm_info" :=
              VDict
                {[ "public_ips" :=
                     VList (diff a public_ips active_public_ips);
                   "private_ips" :=
                     VList (diff a private_ips active_private_ips);
                   "instance_ids" :=
                     VList (diff a instance_ids active_instances) ]}]>
            (<["state" := VStr "success"]> record))) in
  let failed : dict :=
    <["reason" := VStr (str e)]>
      (<["success" := VBool false]>
         (<["state" := VStr "failed"]> record)) in
  spawn_vms a num_vms parameters operation_id w =
    PersistentDictionary.put operation_id
      (VDict (match diff a public_ips active_public_ips with
              | _ :: _ => partial
              | [] => failed
              end)) w4 ∧
  failed !! "vm_info" = record !! "vm_info" ∧
  (record !! "vm_info" = Some VNone -> failed !! "vm_info" = Some VNone).
Proof.
  intros Hrecord Hbaseline Hconfigure Hrun Hclass Hagain partial failed.
  assert (Hunset : failed !! "vm_info" = record !! "vm_info").
  { unfold failed. by rewrite !lookup_insert_ne. }
  split; [|split; [exact Hunset | intros Hnone; by rewrite Hunset]].
  unfold spawn_vms, spawn_vms_from, spawn_vms_launch. monad.
  unfold PersistentDictionary.lookup. rewrite Hrecord. simpl.
  rewrite Hbaseline, Hconfigure. simpl. rewrite Hrun, Hclass.
  change (set_backend b3 (set_backend b2 w1)) with (set_backend b3 w1).
  rewrite Hagain.
  destruct (diff a public_ips active_public_ips); reflexivity.
Qed.


(** ** The terminate worker *)

(** C10: when the agent's [terminate_instances] raises a runtime error, the
    terminate worker puts the record it read with ['state'] set to
    ['failed'] and ['reason'] set to the text of the error; ['success'] is
    not assigned and keeps the value of the record read, which is [True]
    for the record a submission creates. *)
Theorem kill_failure_keeps_success (a : agent B) (parameters : value)
    (operation_id : string) (record : dict) (w : world B R) (msg : string)
    (b : B) :
  operation_ids w !! operation_id = Some (VDict record) ->
  BaseAgent.terminate_instances a parameters (backend w) =
    (Raise (AgentRuntimeException msg), b) ->
  let final : dict :=
    <["reason" := VStr msg]> (<["state" := VStr "failed"]> record) in
  kill_vms a parameters operation_id w =
    PersistentDictionary.put operation_id (VDict final) (set_backend b w) ∧
  final !! "state" = Some (VStr "failed") ∧
  final !! "reason" = Some (VStr msg) ∧
  final !! "success" = record !! "success" ∧
  (record !! "success" = Some (VBool true) ->
   final !! "success" = Some (VBool true)).
Proof.
  intros Hrecord Hterminate final.
  assert (Hsuccess : final !! "success" = record !! "success").
  { unfold final. by rewrite !lookup_insert_ne. }
  split; [|split; [|split; [|split]]].
  - unfold kill_vms, kill_vms_from. monad.
    unfold PersistentDictionary.lookup. rewrite Hrecord. simpl.
    rewrite Hterminate. reflexivity.
  - unfold final. by rewrite lookup_insert_ne, lookup_insert_eq.
  - unfold final. by rewrite lookup_insert_eq.
  - exact Hsuccess.
  - intros Htrue. by rewrite Hsuccess.
Qed.

(** ** What a worker does to the world *)

Lemma set_backend_same (w : world B R) : set_backend (backend w) w = w.
Proof. by destruct w. Qed.

Lemma returns_ret {A} (a : A) (Q : A -> Prop) : Q a -> returns (ret a : M A) Q.
Proof. intros Ha w. exists (backend w). by rewrite set_backend_same. Qed.

Lemma returns_lift {A} (r : result A) (Q : A -> Prop) :
  (∀ a, r = Ok a -> Q a) -> returns (lift r : M A) Q.
Proof.
  intros Hr w. exists (backend w). rewrite set_backend_same.
  split; [done|]. simpl. destruct r; auto.
Qed.

Lemma returns_call {A} (f : B -> result A * B) :
  returns (call f : M A) (λ _, True).
Proof.
  intros w. unfold call. destruct (f (backend w)) as [r b].
  exists b. split; [done|]. by destruct r.
Qed.

Lemma returns_bind {A C} (m : M A) (k : A -> M C) (P : A -> Prop)
    (Q : C -> Prop) :
  returns m P -> (∀ a, P a -> returns (k a) Q) -> returns (bind m k) Q.
Proof.
  intros Hm Hk w. unfold bind.
  destruct (Hm w) as (b & Hw & Hp).
  destruct (m w) as [[a|e] w1]; simpl in *; subst.
  - destruct (Hk a Hp (set_backend b w)) as (b' & Hw' & Hq).
    exists b'. by rewrite Hw'.
  - by exists b.
Qed.

Lemma returns_try_except {A} (m : M A) (classes : exn -> bool)
    (handler : exn -> M A) (Q : A -> Prop) :
  returns m Q -> (∀ e, returns (handler e) Q) ->
  returns (try_except m classes handler) Q.
Proof.
  intros Hm Hh w. unfold try_except.
  destruct (Hm w) as (b & Hw & Hq).
  destruct (m w) as [[a|e] w1]; simpl in *; subst.
  - by exists b.
  - destruct (classes e).
    + destruct (Hh e (set_backend b w)) as (b' & Hw' & Hq').
      exists b'. by rewrite Hw'.
    + by exists b.
Qed.

Lemma returns_weaken {A} (m : M A) (P Q : A -> Prop) :
  returns m P -> (∀ a, P a -> Q a) -> returns m Q.
Proof.
  intros Hm HPQ w. destruct (Hm w) as (b & Hw & Hp). exists b.
  split; [done|]. destruct (m w).1; auto.
Qed.

Lemma describe_vms_returns (a : agent B) (parameters : value) :
  returns (describe_vms a parameters) (λ _, True).
Proof.
  apply returns_try_except; [apply returns_call|].
  intros e. by apply returns_ret.
Qed.

Lemma setitem_state (d : value) (v d' : value) :
  setitem d "state" v = Ok d' -> state d' = Some v.
Proof.
  destruct d; simpl; intros [= <-]. simpl. apply lookup_insert_eq.
Qed.

Lemma setitem_other (d : value) (key : string) (v d' : value) :
  setitem d key v = Ok d' -> key ≠ "state" -> state d' = state d.
Proof.
  destruct d; simpl; intros [= <-] Hkey. simpl.
  by apply lookup_insert_ne.
Qed.

(** The [try] statement of the run worker leaves a terminal record in
    [status_info]. *)
Lemma spawn_vms_launch_effect (a : agent B) (num_vms : Z)
    (parameters : value) (operation_id : string) (status_info : value)
    (active_public_ips active_private_ips active_instances : list string)
    (w : world B R) :
  ∃ b : B,
    (∃ e, spawn_vms_launch a num_vms parameters operation_id status_info
            active_public_ips active_private_ips active_instances w =
          (Raise e, set_backend b w)) ∨
    (∃ final, terminal final ∧
       spawn_vms_launch a num_vms parameters operation_id status_info
         active_public_ips active_private_ips active_instances w =
       PersistentDictionary.put operation_id final (set_backend b w)).
Proof.
  unfold spawn_vms_launch.
  lazymatch goal with
  | |- context [bind (try_except ?m ?c ?h) _] =>
      set (attempt := try_except m c h)
  end.
  assert (Htry : returns attempt terminal).
  { subst attempt. apply returns_try_except.
    - eapply returns_bind; [apply returns_call|]. intros security _.
      eapply returns_bind; [apply returns_call|].
      intros [[ids public_ips] private_ips] _.
      eapply (returns_bind _ _ (λ d, state d = Some (VStr STATE_SUCCESS))).
      { apply returns_lift. intros d. apply setitem_state. }
      intros d Hd.
      eapply (returns_bind _ _ (λ d, state d = Some (VStr STATE_SUCCESS))).
      { apply returns_lift. intros d' Hd'.
        by rewrite (setitem_other _ _ _ _ Hd') by done. }
      intros d' Hd'. apply returns_ret. by left.
    - intros e.
      eapply returns_bind; [apply describe_vms_returns|].
      intros [[public_ips private_ips] instance_ids] _.
      eapply (returns_bind _ _ terminal).
      { destruct (diff a public_ips active_public_ips).
        - apply returns_lift. intros d Hd. right. by apply setitem_state in Hd.
        - eapply (returns_bind _ _
                    (λ d, state d = Some (VStr STATE_SUCCESS))).
          { apply returns_lift. intros d. apply setitem_state. }
          intros d Hd. apply returns_lift. intros d' Hd'. left.
          by rewrite (setitem_other _ _ _ _ Hd') by done. }
      intros d Hd.
      eapply (returns_bind _ _ terminal).
      { apply returns_lift. intros d' Hd'. unfold terminal.
        by rewrite (setitem_other _ _ _ _ Hd') by done. }
      intros d' Hd'.
      eapply (returns_bind _ _ terminal).
      { apply returns_lift. intros d'' Hd''. unfold terminal.
        by rewrite (setitem_other _ _ _ _ Hd'') by done. }
      intros d'' Hd''. by apply returns_ret. }
  clearbody attempt.
  destruct (Htry w) as (b & Hw & Hq). exists b. unfold bind.
  destruct (attempt w) as [[final|e] w1]; simpl in *; subst.
  - right. by exists final.
  - left. by exists e.
Qed.


(** The rest of the terminate worker either raises, having touched the
    backend only, or puts one terminal record under its operation id. *)
Lemma kill_vms_from_effect (a : agent B) (parameters : value)
    (operation_id : string) (status_info : value) (w : world B R) :
  ∃ b : B,
    (∃ e, kill_vms_from a parameters operation_id status_info w =
          (Raise e, set_backend b w)) ∨
    (∃ final, terminal final ∧
       kill_vms_from a parameters operation_id status_info w =
       PersistentDictionary.put operation_id final (set_backend b w)).
Proof.
  unfold kill_vms_from.
  lazymatch goal with
  | |- context [bind (try_except ?m ?c ?h) _] =>
      set (attempt := try_except m c h)
  end.
  assert (Htry : returns attempt terminal).
  { subst attempt. apply returns_try_except.
    - eapply returns_bind; [apply returns_call|]. intros _ _.
      apply returns_lift. intros d Hd. left. by apply setitem_state in Hd.
    - intros e.
      eapply (returns_bind _ _ (λ d, state d = Some (VStr STATE_FAILED))).
      { apply returns_lift. intros d. apply setitem_state. }
      intros d Hd. apply returns_lift. intros d' Hd'. right.
      by rewrite (setitem_other _ _ _ _ Hd') by done. }
  clearbody attempt.
  destruct (Htry w) as (b & Hw & Hq). exists b. unfold bind.
  destruct (attempt w) as [[final|e] w1]; simpl in *; subst.
  - right. by exists final.
  - left. by exists e.
Qed.

Lemma spawn_vms_from_effect (a : agent B) (num_vms : Z) (parameters : value)
    (operation_id : string) (status_info : value) (w : world B R) :
  ∃ b : B,
    (∃ e, spawn_vms_from a num_vms parameters operation_id status_info w =
          (Raise e, set_backend b w)) ∨
    (∃ final, terminal final ∧
       spawn_vms_from a num_vms parameters operation_id status_info w =
       PersistentDictionary.put operation_id final (set_backend b w)).
Proof.
  unfold spawn_vms_from, bind.
  destruct (describe_vms_returns a parameters w) as (b & Hw & _).
  destruct (describe_vms a parameters w)
    as [[[[public_ips private_ips] instance_ids]|e] w1];
    simpl in Hw; subst.
  - destruct (spawn_vms_launch_effect a num_vms parameters operation_id
                status_info public_ips private_ips instance_ids
                (set_backend b w)) as (b' & Heffect).
    by exists b'.
  - exists b. left. by exists e.
Qed.

(** A worker that has read its record either raises, having touched the
    backend only, or puts one terminal record under its operation id. *)
Lemma resume_effect (t : task B) (status_info : value) (w : world B R) :
  ∃ b : B,
    (∃ e, resume t status_info w = (Raise e, set_backend b w)) ∨
    (∃ final, terminal final ∧
       resume t status_info w =
       PersistentDictionary.put (task_id t) final (set_backend b w)).
Proof.
  destruct t; simpl;
    [apply spawn_vms_from_effect | apply kill_vms_from_effect].
Qed.

(** ** Errors raised by the agent *)

Lemma describe_vms_total (a : agent B) (parameters : value) (w : world B R) :
  (∀ b e b', describe_instances a parameters b = (Raise e, b') ->
             is_agent_configuration e || is_agent_runtime e = true) ->
  ∃ inventory b, describe_vms a parameters w = (Ok inventory, set_backend b w).
Proof.
  intros Hdescribe. unfold describe_vms, try_except, call, ret.
  destruct (describe_instances a parameters (backend w)) as [[inventory|e] b]
    eqn:Hcall.
  - by exists inventory, b.
  - rewrite (Hdescribe _ _ _ Hcall). by exists ([], [], []), b.
Qed.

(** C4 (amended): the run worker absorbs every configuration or runtime
    error its agent calls raise ([describe_instances],
    [configure_instance_security], [run_instances]): it returns, having put
    a terminal record under its operation id.  The terminate worker absorbs
    the runtime errors of [terminate_instances] in the same way; any other
    error of that call, a configuration error included, is raised by the
    worker, which then puts nothing. *)
Theorem agent_errors_are_absorbed (a : agent B) (num_vms : Z)
    (parameters : value) (operation_id : string) (record : dict)
    (w : world B R) :
  operation_ids w !! operation_id = Some (VDict record) ->
  ((∀ b e b', describe_instances a parameters b = (Raise e, b') ->
              is_agent_configuration e || is_agent_runtime e = true) ->
   (∀ b e b', configure_instance_security a parameters b = (Raise e, b') ->
              is_agent_configuration e || is_agent_runtime e = true) ->
   (∀ security b e b',
      BaseAgent.run_instances a num_vms parameters security false b =
        (Raise e, b') ->
      is_agent_configuration e || is_agent_runtime e = true) ->
   ∃ final w',
     spawn_vms a num_vms parameters operation_id w = (Ok tt, w') ∧
     operation_ids w' !! operation_id = Some final ∧ terminal final) ∧
  ((∀ e b, BaseAgent.terminate_instances a parameters (backend w) =
             (Raise e, b) -> is_agent_runtime e = true) ->
   ∃ final w',
     kill_vms a parameters operation_id w = (Ok tt, w') ∧
     operation_ids w' !! operation_id = Some final ∧ terminal final) ∧
  (∀ e b, BaseAgent.terminate_instances a parameters (backend w) =
            (Raise e, b) ->
          is_agent_runtime e = false ->
          kill_vms a parameters operation_id w = (Raise e, set_backend b w)).
Proof.
  intros Hrecord. split; [|split].
  - intros Hdescribe Hconfigure Hrun.
    unfold spawn_vms, bind at 1. unfold PersistentDictionary.get. simpl.
    rewrite Hrecord. simpl.
    destruct (spawn_vms_from_effect a num_vms parameters operation_id
                (VDict record) w) as (b & [[e He] | (final & Hfinal & Hput)]).
    + exfalso. revert He. unfold spawn_vms_from, bind at 1.
      destruct (describe_vms_total a parameters w Hdescribe)
        as ([[pub0 priv0] ids0] & b1 & ->).
      unfold spawn_vms_launch, bind at 1, try_except at 1.
      unfold bind at 1, call at 1. simpl.
      destruct (configure_instance_security a parameters b1)
        as [[security|e1] b2] eqn:Hc.
      * unfold bind at 1, call at 1. simpl.
        destruct (BaseAgent.run_instances a num_vms parameters security
                    false b2) as [[[[ids pub] priv]|e2] b3] eqn:Hr.
        -- by monad.
        -- rewrite (Hrun _ _ _ _ Hr). unfold bind at 1.
           destruct (describe_vms_total a parameters
                       (set_backend b3 (set_backend b2 (set_backend b1 w)))
                       Hdescribe) as ([[pub1 priv1] ids1] & b4 & ->).
           destruct (diff a pub1 pub0); by monad.
      * rewrite (Hconfigure _ _ _ Hc). unfold bind at 1.
        destruct (describe_vms_total a parameters
                    (set_backend b2 (set_backend b1 w))
                    Hdescribe) as ([[pub1 priv1] ids1] & b4 & ->).
        destruct (diff a pub1 pub0); by monad.
    + exists final. eexists. split; [exact Hput|]. split; [|done].
      apply lookup_insert_eq.
  - intros Hterminate.
    unfold kill_vms, bind at 1. unfold PersistentDictionary.get. simpl.
    rewrite Hrecord. simpl.
    destruct (kill_vms_from_effect a parameters operation_id
                (VDict record) w) as (b & [[e He] | (final & Hfinal & Hput)]).
    + exfalso. revert He. unfold kill_vms_from. monad.
      destruct (BaseAgent.terminate_instances a parameters (backend w))
        as [[[]|e1] b1] eqn:Hcall; [done|].
      by rewrite (Hterminate _ _ eq_refl).
    + exists final. eexists. split; [exact Hput|]. split; [|done].
      apply lookup_insert_eq.
  - intros e b Hcall Hclass.
    unfold kill_vms, kill_vms_from. monad.
    unfold PersistentDictionary.lookup. rewrite Hrecord. simpl.
    by rewrite Hcall, Hclass.
Qed.


(** ** Submissions *)

Lemma generate_response_rejects (msg : string) :
  getitem (generate_response false msg None) "success" = Ok (VBool false).
Proof.
  unfold generate_response, getitem.
  by rewrite lookup_insert_ne, lookup_insert_eq.
Qed.

Lemma generate_response_operation_id (operation_id : string) :
  let response :=
    generate_response true REASON_NONE
      (Some {[ "operation_id" := VStr operation_id ]}) in
  getitem response "success" = Ok (VBool true) ∧
  getitem response "operation_id" = Ok (VStr operation_id).
Proof.
  unfold generate_response, getitem. split.
  - rewrite lookup_union_r by by apply lookup_singleton_ne.
    by rewrite lookup_insert_ne, lookup_insert_eq.
  - by rewrite (lookup_union_Some_l _ _ _ (VStr operation_id))
      by apply lookup_singleton_eq.
Qed.

Ltac next_in H := unfold bind at 1 in H; unfold lift at 1 in H.

Ltac turned_down w H :=
  left; exists (backend w); eexists; rewrite set_backend_same;
  split; [exact H|];
  first [ by intros ? [= <-]; apply generate_response_rejects
        | by intros ? [=] ].

(** A request to run instances is either turned down, having touched the
    backend at most, or it draws an operation id, puts the pending record
    under it and hands the task to the worker. *)
Lemma run_instances_cases (parameters secret : value) (w : world B R) :
  (∃ b res,
     run_instances parameters secret w = (res, set_backend b w) ∧
     ∀ response, res = Ok response ->
                 getitem response "success" = Ok (VBool false)) ∨
  (∃ b a num_vms checked record operation_id r,
     pending record ∧
     get_random_alphanumeric (random w) = (operation_id, r) ∧
     run_instances parameters secret w =
     bind (if self_blocking
           then spawn_vms a num_vms checked operation_id
           else start_new_thread (SpawnVms a num_vms checked operation_id))
       (λ _, ret (generate_response true REASON_NONE
                    (Some {[ "operation_id" := VStr operation_id ]})))
       (World (<[operation_id := record]> (operation_ids w))
          (puts w ++ [(operation_id, record)]) b r (threads w))).
Proof.
  remember (run_instances parameters secret w) as out eqn:Hout.
  unfold run_instances in Hout. next_in Hout.
  destruct (validate_args parameters secret) as [[checked given]|e];
    [|turned_down w Hout].
  destruct (negb (self_secret =? given)%string); [turned_down w Hout|].
  next_in Hout.
  destruct (first_missing RUN_INSTANCES_REQUIRED_PARAMS checked)
    as [[param|]|e]; [turned_down w Hout| |turned_down w Hout].
  next_in Hout.
  destruct (getitem checked PARAM_NUM_VMS) as [num_vms|e];
    [|turned_down w Hout].
  next_in Hout.
  destruct (int num_vms) as [n|e]; [|turned_down w Hout].
  destruct (n <=? 0); [turned_down w Hout|].
  next_in Hout.
  destruct (getitem checked PARAM_INFRASTRUCTURE) as [infrastructure|e];
    [|turned_down w Hout].
  next_in Hout.
  destruct (create_agent infrastructure) as [a|e]; [|turned_down w Hout].
  unfold bind at 1 in Hout. unfold try_except at 1 in Hout.
  unfold bind at 1, call at 1 in Hout.
  destruct (assert_required_parameters a checked OPERATION_RUN (backend w))
    as [[[]|e] b].
  - unfold ret at 1 in Hout. cbv beta iota in Hout.
    unfold bind at 1, random_alphanumeric, set_backend in Hout.
    cbn [random operation_ids puts backend threads] in Hout.
    destruct (get_random_alphanumeric (random w)) as [operation_id r].
    right. exists b, a, n, checked. eexists. exists operation_id, r.
    split; [|split; [done|exact Hout]].
    by vm_compute.
  - left. exists b. destruct (is_agent_configuration e).
    + eexists. split; [exact Hout|]. intros ? [= <-].
      apply generate_response_rejects.
    + exists (Raise e). by split.
Qed.

(** The same for a request to terminate instances. *)
Lemma terminate_instances_cases (parameters secret : value) (w : world B R) :
  (∃ b res,
     terminate_instances parameters secret w = (res, set_backend b w) ∧
     ∀ response, res = Ok response ->
                 getitem response "success" = Ok (VBool false)) ∨
  (∃ b a checked record operation_id r,
     pending record ∧
     get_random_alphanumeric (random w) = (operation_id, r) ∧
     terminate_instances parameters secret w =
     bind (if self_blocking
           then kill_vms a checked operation_id
           else start_new_thread (KillVms a checked operation_id))
       (λ _, ret (generate_response true REASON_NONE
                    (Some {[ "operation_id" := VStr operation_id ]})))
       (World (<[operation_id := record]> (operation_ids w))
          (puts w ++ [(operation_id, record)]) b r (threads w))).
Proof.
  remember (terminate_instances parameters secret w) as out eqn:Hout.
  unfold terminate_instances in Hout. next_in Hout.
  destruct (validate_args parameters secret) as [[checked given]|e];
    [|turned_down w Hout].
  destruct (negb (self_secret =? given)%string); [turned_down w Hout|].
  next_in Hout.
  destruct (first_missing TERMINATE_INSTANCES_REQUIRED_PARAMS checked)
    as [[param|]|e]; [turned_down w Hout| |turned_down w Hout].
  next_in Hout.
  destruct (getitem checked PARAM_INFRASTRUCTURE) as [infrastructure|e];
    [|turned_down w Hout].
  next_in Hout.
  destruct (create_agent infrastructure) as [a|e]; [|turned_down w Hout].
  unfold bind at 1 in Hout. unfold try_except at 1 in Hout.
  unfold bind at 1, call at 1 in Hout.
  destruct (assert_required_parameters a checked OPERATION_TERMINATE
              (backend w)) as [[[]|e] b].
  - unfold ret at 1 in Hout. cbv beta iota in Hout.
    unfold bind at 1, random_alphanumeric, set_backend in Hout.
    cbn [random operation_ids puts backend threads] in Hout.
    destruct (get_random_alphanumeric (random w)) as [operation_id r].
    right. exists b, a, checked. eexists. exists operation_id, r.
    split; [|split; [done|exact Hout]].
    by vm_compute.
  - left. exists b. destruct (is_agent_configuration e).
    + eexists. split; [exact Hout|]. intros ? [= <-].
      apply generate_response_rejects.
    + exists (Raise e). by split.
Qed.


(** A worker run inline, as blocking mode does, either raises, having
    touched the backend only, or puts one terminal record. *)
Lemma inline_worker_effect (t : task B) (w : world B R) :
  ∃ b : B,
    (∃ e, bind (fetch t) (resume t) w = (Raise e, set_backend b w)) ∨
    (∃ final, terminal final ∧
       bind (fetch t) (resume t) w =
       PersistentDictionary.put (task_id t) final (set_backend b w)).
Proof.
  unfold bind, fetch, PersistentDictionary.get. simpl.
  apply resume_effect.
Qed.

(** What serving a request does to the world: it touches the backend at
    most, or it is a submission that draws an operation id and puts a
    pending record under it, after which the worker is run inline or
    started as a thread. *)
Lemma serve_cases (q : request) (w : world B R) :
  (∃ b, (serve q w).2 = set_backend b w) ∨
  (∃ b t record r,
     pending record ∧
     get_random_alphanumeric (random w) = (task_id t, r) ∧
     (serve q w).2 =
     (bind (if self_blocking then bind (fetch t) (resume t)
            else start_new_thread t)
        (λ _, ret (generate_response true REASON_NONE
                     (Some {[ "operation_id" := VStr (task_id t) ]})))
        (World (<[task_id t := record]> (operation_ids w))
           (puts w ++ [(task_id t, record)]) b r (threads w))).2).
Proof.
  destruct q as [parameters secret|parameters secret|parameters secret|
                 parameters disk_name instance_id secret]; simpl.
  - left. exists (backend w). rewrite set_backend_same.
    apply describe_operation_keeps_world.
  - destruct (run_instances_cases parameters secret w)
      as [(b & res & -> & _) |
          (b & a & n & checked & record & id & r & Hp & Hr & ->)].
    + left. by exists b.
    + right. by exists b, (SpawnVms a n checked id), record, r.
  - destruct (terminate_instances_cases parameters secret w)
      as [(b & res & -> & _) |
          (b & a & checked & record & id & r & Hp & Hr & ->)].
    + left. by exists b.
    + right. by exists b, (KillVms a checked id), record, r.
  - left. unfold attach_disk. monad.
    repeat case_match; simplify_eq;
      first [ by eexists | by exists (backend w); rewrite set_backend_same ].
Qed.

(** C3 (amended): the operation id of an accepted [run_instances] or
    [terminate_instances] submission is the identifier the random source
    returns.  The store is not consulted: the pending record is put under
    that identifier whatever the store holds, replacing the record of an
    operation that has the same identifier. *)
Theorem operation_id_is_the_random_draw (q : request) (w w' : world B R)
    (response : value) :
  (∃ parameters secret,
     q = RunInstances parameters secret ∨
     q = TerminateInstances parameters secret) ->
  serve q w = (Ok response, w') ->
  getitem response "success" = Ok (VBool true) ->
  ∃ operation_id record rest,
    get_random_alphanumeric (random w) = (operation_id, random w') ∧
    getitem response "operation_id" = Ok (VStr operation_id) ∧
    pending record ∧
    puts w' = puts w ++ (operation_id, record) :: rest ∧
    (self_blocking = false ->
     operation_ids w' = <[operation_id := record]> (operation_ids w)).
Proof.
  intros (parameters & secret & Hq) Hserve Hsuccess.
  assert (Hcases :
    (∃ b res, serve q w = (res, set_backend b w) ∧
       ∀ response, res = Ok response ->
                   getitem response "success" = Ok (VBool false)) ∨
    (∃ b t record r,
       pending record ∧
       get_random_alphanumeric (random w) = (task_id t, r) ∧
       serve q w =
       bind (if self_blocking then bind (fetch t) (resume t)
             else start_new_thread t)
         (λ _, ret (generate_response true REASON_NONE
                      (Some {[ "operation_id" := VStr (task_id t) ]})))
         (World (<[task_id t := record]> (operation_ids w))
            (puts w ++ [(task_id t, record)]) b r (threads w)))).
  { destruct Hq as [-> | ->]; simpl.
    - destruct (run_instances_cases parameters secret w)
        as [Hno | (b & a & n & checked & record & id & r & Hp & Hr & ->)];
        [by left|].
      right. by exists b, (SpawnVms a n checked id), record, r.
    - destruct (terminate_instances_cases parameters secret w)
        as [Hno | (b & a & checked & record & id & r & Hp & Hr & ->)];
        [by left|].
      right. by exists b, (KillVms a checked id), record, r. }
  destruct Hcases as [(b & res & Hres & Hno) |
                      (b & t & record & r & Hp & Hr & Hyes)].
  { rewrite Hserve in Hres. injection Hres as <- _.
    rewrite (Hno _ eq_refl) in Hsuccess. discriminate. }
  rewrite Hserve in Hyes. exists (task_id t), record.
  destruct self_blocking.
  - unfold bind at 1 in Hyes.
    lazymatch type of Hyes with
    | context [bind (fetch t) (resume t) ?w1] =>
        destruct (inline_worker_effect t w1)
          as (b' & [(e & He) | (final & Hfinal & Hput)])
    end.
    + rewrite He in Hyes. discriminate.
    + rewrite Hput in Hyes. unfold PersistentDictionary.put, ret in Hyes.
      injection Hyes as -> ->. exists [(task_id t, final)].
      cbn [random puts set_backend operation_ids backend threads].
      split; [done|]. split; [apply generate_response_operation_id|].
      split; [done|]. split; [by rewrite <- app_assoc|done].
  - unfold bind, start_new_thread, ret in Hyes.
    injection Hyes as -> ->. exists [].
    cbn [random puts operation_ids].
    split; [done|]. split; [apply generate_response_operation_id|].
    done.
Qed.


(** ** The life cycle of operation records *)

Lemma puts_to_put (k operation_id : string) (v : value) (w w' : world B R) :
  puts w' = puts w ++ [(operation_id, v)] ->
  puts_to k w' =
  puts_to k w ++ (if decide (operation_id = k) then [v] else []).
Proof.
  intros Hputs. unfold puts_to.
  rewrite Hputs, filter_app, fmap_app. f_equal.
  rewrite filter_cons, filter_nil. simpl. by repeat case_decide.
Qed.

Lemma lifecycle_frame (k : string) (w w' : world B R) :
  operation_ids w' = operation_ids w -> puts w' = puts w ->
  lifecycle k w -> lifecycle k w'.
Proof. unfold lifecycle, puts_to. by intros -> ->. Qed.

Lemma lifecycle_other (k operation_id : string) (v : value)
    (w w' : world B R) :
  operation_ids w' = <[operation_id := v]> (operation_ids w) ->
  puts w' = puts w ++ [(operation_id, v)] ->
  operation_id ≠ k ->
  lifecycle k w -> lifecycle k w'.
Proof.
  intros Hstore Hputs Hne. unfold lifecycle.
  rewrite (puts_to_put k operation_id v w w' Hputs), Hstore.
  rewrite decide_False, app_nil_r by done.
  by rewrite lookup_insert_ne.
Qed.

Lemma lifecycle_created (operation_id : string) (v : value)
    (w w' : world B R) :
  operation_ids w' = <[operation_id := v]> (operation_ids w) ->
  puts w' = puts w ++ [(operation_id, v)] ->
  puts_to operation_id w = [] -> pending v ->
  lifecycle operation_id w'.
Proof.
  intros Hstore Hputs Hnone Hpending. unfold lifecycle.
  rewrite (puts_to_put _ operation_id v w w' Hputs), Hstore, Hnone.
  rewrite decide_True by done. simpl.
  by rewrite lookup_insert_eq.
Qed.

Lemma lifecycle_finished (operation_id : string) (r0 v : value)
    (w w' : world B R) :
  operation_ids w' = <[operation_id := v]> (operation_ids w) ->
  puts w' = puts w ++ [(operation_id, v)] ->
  puts_to operation_id w = [r0] -> lifecycle operation_id w -> terminal v ->
  lifecycle operation_id w'.
Proof.
  intros Hstore Hputs Hone Hlife Hterminal. unfold lifecycle in *.
  rewrite (puts_to_put _ operation_id v w w' Hputs), Hstore.
  rewrite Hone in *. rewrite decide_True by done. simpl.
  destruct Hlife as [Hpending _]. by rewrite lookup_insert_eq.
Qed.

Lemma unused_has_no_put (operation_id : string) (w : world B R) :
  lifecycle operation_id w -> operation_ids w !! operation_id = None ->
  puts_to operation_id w = [].
Proof.
  unfold lifecycle. intros Hlife Hnone.
  destruct (puts_to operation_id w) as [|r0 [|r1 [|r2 l]]]; [done| | |done].
  - destruct Hlife as [_ Hsome]. congruence.
  - destruct Hlife as (_ & _ & Hsome). congruence.
Qed.

Lemma consistent_set_backend (b : B) (w : world B R) :
  consistent w -> consistent (set_backend b w).
Proof. intros Hw. exact Hw. Qed.

Lemma consistent_set_threads (ts : list (thread B)) (w : world B R) :
  consistent w ->
  NoDup (thread_id <$> ts) ->
  (∀ th, th ∈ ts -> thread_id th ∈ thread_id <$> threads w) ->
  consistent (set_threads ts w).
Proof.
  intros (Hlife & Hdup & Hone) Hdup' Hsub.
  split; [exact Hlife|]. split; [exact Hdup'|].
  intros th Hth.
  destruct (list_elem_of_fmap_1 _ _ _ (Hsub th Hth)) as (th0 & Hid & Hth0).
  rewrite Hid. apply (Hone th0 Hth0).
Qed.

(** Putting the pending record of a submission under an unused id. *)
Lemma consistent_submit (operation_id : string) (record : value) (b : B)
    (r : R) (w : world B R) :
  consistent w ->
  operation_ids w !! operation_id = None ->
  pending record ->
  let w1 := World (<[operation_id := record]> (operation_ids w))
              (puts w ++ [(operation_id, record)]) b r (threads w) in
  consistent w1 ∧ puts_to operation_id w1 = [record] ∧
  operation_id ∉ thread_id <$> threads w1.
Proof.
  intros (Hlife & Hdup & Hone) Hunused Hpending w1.
  assert (Hnone : puts_to operation_id w = [])
    by by apply unused_has_no_put.
  assert (Hfresh : operation_id ∉ thread_id <$> threads w).
  { intros Hin. apply list_elem_of_fmap_1 in Hin as (th & Hid & Hth).
    destruct (Hone th Hth) as [r0 Hr0]. rewrite <- Hid in Hr0. congruence. }
  split; [|split; [|exact Hfresh]].
  - split; [|split; [exact Hdup|]].
    + intros k. destruct (decide (operation_id = k)) as [<-|Hne].
      * by apply (lifecycle_created operation_id record w w1).
      * by apply (lifecycle_other k operation_id record w w1).
    + intros th Hth. destruct (Hone th Hth) as [r0 Hr0]. exists r0.
      rewrite (puts_to_put _ operation_id record w w1) by done.
      rewrite Hr0, decide_False; [done|].
      intros Heq. apply Hfresh. rewrite Heq.
      by apply list_elem_of_fmap_2.
  - rewrite (puts_to_put _ operation_id record w w1) by done.
    by rewrite Hnone, decide_True.
Qed.

(** Starting the thread of a submission. *)
Lemma consistent_start (t : task B) (record : value) (w : world B R) :
  consistent w ->
  puts_to (task_id t) w = [record] ->
  task_id t ∉ thread_id <$> threads w ->
  consistent (set_threads (threads w ++ [Started t]) w).
Proof.
  intros (Hlife & Hdup & Hone) Hrecord Hfresh.
  split; [exact Hlife|]. split.
  - simpl. rewrite fmap_app. apply NoDup_app. split; [done|]. split.
    + intros k Hk [->|Hin%elem_of_nil]%elem_of_cons; done.
    + apply NoDup_singleton.
  - simpl. intros th [Hth|Hth%list_elem_of_singleton]%elem_of_app.
    + by apply Hone.
    + subst th. by exists record.
Qed.

(** The one put of a worker. *)
Lemma consistent_finish (operation_id : string) (r0 final : value)
    (w : world B R) :
  consistent w ->
  puts_to operation_id w = [r0] ->
  operation_id ∉ thread_id <$> threads w ->
  terminal final ->
  consistent (PersistentDictionary.put operation_id final w).2.
Proof.
  intros (Hlife & Hdup & Hone) Hr0 Hfresh Hterminal.
  set (w' := (PersistentDictionary.put operation_id final w).2).
  split; [|split; [exact Hdup|]].
  - intros k. destruct (decide (operation_id = k)) as [<-|Hne].
    + by apply (lifecycle_finished operation_id r0 final w w').
    + by apply (lifecycle_other k operation_id final w w').
  - intros th Hth. destruct (Hone th Hth) as [r1 Hr1]. exists r1.
    rewrite (puts_to_put _ operation_id final w w') by done.
    rewrite Hr1, decide_False; [done|].
    intros Heq. apply Hfresh. rewrite Heq.
    by apply list_elem_of_fmap_2.
Qed.


Lemma consistent_initial (b : B) (r : R) : consistent (initial b r).
Proof.
  split; [|split].
  - intros k. unfold lifecycle, puts_to. simpl. apply lookup_empty.
  - simpl. apply NoDup_nil_2.
  - simpl. intros th Hth. by apply elem_of_nil in Hth.
Qed.

Lemma NoDup_without (id : string) (ids1 ids2 : list string) :
  NoDup (ids1 ++ id :: ids2) -> NoDup (ids1 ++ ids2) ∧ id ∉ ids1 ++ ids2.
Proof.
  intros Hdup. apply NoDup_app in Hdup as (Hdup1 & Hsep & Hdup2).
  apply NoDup_cons in Hdup2 as [Hid Hdup2]. split.
  - apply NoDup_app. split; [done|]. split; [|done].
    intros x Hx Hx2. apply (Hsep x Hx). by right.
  - intros [Hin|Hin]%elem_of_app; [|done].
    apply (Hsep id Hin). by left.
Qed.

(** Serving a request keeps the invariant when the id it allocates, if it
    allocates one, is not in the store. *)
Lemma consistent_serve (q : request) (w : world B R) :
  consistent w -> allocates_fresh w (serve q w).2 ->
  consistent (serve q w).2.
Proof.
  intros Hw Hfresh.
  destruct (serve_cases q w)
    as [(b & Hb) | (b & t & record & r & Hp & Hr & Hyes)].
  { rewrite Hb. by apply consistent_set_backend. }
  revert Hyes.
  set (w1 := World (<[task_id t := record]> (operation_ids w))
               (puts w ++ [(task_id t, record)]) b r (threads w)).
  intros Hyes. unfold bind at 1 in Hyes.
  destruct self_blocking.
  - destruct (inline_worker_effect t w1)
      as (b' & [(e & He) | (final & Hfinal & Hput)]).
    + rewrite He in Hyes. cbn [snd] in Hyes.
      assert (Hunused : operation_ids w !! task_id t = None).
      { apply (Hfresh (task_id t) record []). by rewrite Hyes. }
      rewrite Hyes. apply consistent_set_backend.
      by apply (consistent_submit (task_id t) record b r w).
    + rewrite Hput in Hyes.
      unfold PersistentDictionary.put, ret in Hyes. cbn [snd] in Hyes.
      assert (Hunused : operation_ids w !! task_id t = None).
      { apply (Hfresh (task_id t) record [(task_id t, final)]).
        rewrite Hyes. unfold w1. cbn [puts set_backend].
        by rewrite <- app_assoc. }
      destruct (consistent_submit (task_id t) record b r w Hw Hunused Hp)
        as (Hw1 & Hone & Hno).
      rewrite Hyes.
      by apply (consistent_finish (task_id t) record final
                  (set_backend b' w1)).
  - unfold start_new_thread, ret in Hyes. cbn [snd] in Hyes.
    assert (Hunused : operation_ids w !! task_id t = None).
    { apply (Hfresh (task_id t) record []). by rewrite Hyes. }
    destruct (consistent_submit (task_id t) record b r w Hw Hunused Hp)
      as (Hw1 & Hone & Hno).
    rewrite Hyes.
    by apply (consistent_start t record w1).
Qed.

(** A step of a thread keeps the invariant. *)
Lemma consistent_thread (w w' : world B R) :
  consistent w -> thread_step w w' -> consistent w'.
Proof.
  intros Hw Hstep.
  destruct Hstep as [t ts1 ts2 w Hts | t status_info ts1 ts2 w Hts].
  - unfold fetch, PersistentDictionary.get. cbn [PersistentDictionary.lookup].
    apply consistent_set_threads; [done| |].
    + destruct Hw as (_ & Hdup & _). rewrite Hts in Hdup.
      by rewrite fmap_app in *.
    + intros th Hth. rewrite Hts.
      rewrite fmap_app in *. rewrite fmap_cons.
      apply elem_of_app in Hth as [Hth|Hth%elem_of_cons].
      * apply elem_of_app. left. by apply list_elem_of_fmap_2.
      * apply elem_of_app. right. destruct Hth as [->|Hth].
        -- by left.
        -- right. by apply list_elem_of_fmap_2.
  - pose proof Hw as (_ & Hdup & Hone).
    rewrite Hts, fmap_app, fmap_cons in Hdup.
    apply NoDup_without in Hdup as [Hdup Hno].
    rewrite <- fmap_app in Hdup, Hno.
    assert (Hw0 : consistent (set_threads (ts1 ++ ts2) w)).
    { apply consistent_set_threads; [done|done|].
      intros th Hth. apply list_elem_of_fmap_2. rewrite Hts.
      apply elem_of_app in Hth as [Hth|Hth]; apply elem_of_app;
        [by left | right; by right]. }
    destruct (Hone (Fetched t status_info)) as [r0 Hr0].
    { rewrite Hts. apply elem_of_app. right. by left. }
    destruct (resume_effect t status_info (set_threads (ts1 ++ ts2) w))
      as (b & [(e & ->) | (final & Hfinal & ->)]).
    + by apply consistent_set_backend.
    + by apply (consistent_finish (task_id t) r0 final
                  (set_backend b (set_threads (ts1 ++ ts2) w))).
Qed.

(** A step never takes a put back. *)
Lemma step_extends_puts (w w' : world B R) :
  step w w' -> puts w `prefix_of` puts w'.
Proof.
  intros [q w0 | w0 w0' Hthread].
  - destruct (serve_cases q w0)
      as [(b & ->) | (b & t & record & r & _ & _ & ->)]; [done|].
    unfold bind at 1. destruct self_blocking.
    + lazymatch goal with
      | |- context [bind (fetch t) (resume t) ?w1] =>
          destruct (inline_worker_effect t w1)
            as (b' & [(e & ->) | (final & _ & ->)])
      end.
      * by apply prefix_app_r.
      * unfold PersistentDictionary.put, ret. cbn [snd puts set_backend].
        by do 2 apply prefix_app_r.
    + by apply prefix_app_r.
  - destruct Hthread as [t ts1 ts2 w1 Hts | t status_info ts1 ts2 w1 Hts].
    + done.
    + destruct (resume_effect t status_info (set_threads (ts1 ++ ts2) w1))
        as (b & [(e & ->) | (final & _ & ->)]); [done|].
      by apply prefix_app_r.
Qed.

Lemma reachable_fresh_consistent (b : B) (r : R) (w : world B R) :
  reachable_fresh b r w -> consistent w.
Proof.
  induction 1 as [|q w Hreach IH Hfresh|w w' Hreach IH Hstep].
  - apply consistent_initial.
  - by apply consistent_serve.
  - by apply (consistent_thread w).
Qed.

(** C2 (amended): as long as every submission puts its pending record
    under an id that is not yet in the store, each operation id has one
    of three histories: nothing was put under it; one record was put, at
    submission, it is pending and it is the one in the store; or that
    pending record and then one terminal record, put by the worker, which
    is the one in the store.  No step removes or rewrites an earlier put, so
    a record is never deleted and a terminal record is never replaced; a
    pending record stays pending when its worker raises. *)
Theorem records_follow_the_lifecycle (b : B) (r : R) (w : world B R) :
  reachable_fresh b r w ->
  (∀ operation_id, lifecycle operation_id w) ∧
  (∀ w', step w w' -> puts w `prefix_of` puts w').
Proof.
  intros Hreach. split.
  - by apply (reachable_fresh_consistent b r).
  - apply step_extends_puts.
Qed.


(** ** Arguments of the wrong shape *)

(** X1: a request whose parameters are neither a string nor a dictionary
    raises a [TypeError] at every entry point, whatever the secret is; so
    does a request whose parameters have the right type and whose secret is
    not a string.  The world is left as it was. *)
Theorem ill_typed_arguments_raise (q : request) (w : world B R) :
  (match request_parameters q with
   | VStr _ | VDict _ => False
   | _ => True
   end ->
   serve q w =
     (Raise (TypeError
        "Invalid data type for parameters. Must be a JSON string or a dictionary."),
      w)) ∧
  (match request_parameters q with
   | VStr _ | VDict _ => True
   | _ => False
   end ->
   match request_secret q with
   | VStr _ => False
   | _ => True
   end ->
   serve q w =
     (Raise (TypeError "Invalid data type for secret. Must be a string."),
      w)).
Proof.
  split.
  - intros Hparameters.
    destruct q as [parameters secret|parameters secret|parameters secret|
                   parameters disk_name instance_id secret];
      simpl in Hparameters; destruct parameters; try done; reflexivity.
  - intros Hparameters Hsecret.
    destruct q as [parameters secret|parameters secret|parameters secret|
                   parameters disk_name instance_id secret];
      simpl in Hparameters, Hsecret;
      destruct parameters; try done; destruct secret; try done;
      reflexivity.
Qed.

(** X2: a string of parameters is decoded before the secret is looked at:
    when [json.loads] raises, every entry point raises that error, with a
    right secret or a wrong one, and the world is left as it was. *)
Theorem malformed_json_raises (q : request) (s secret : string) (e : exn)
    (w : world B R) :
  request_parameters q = VStr s ->
  request_secret q = VStr secret ->
  json_loads s = Raise e ->
  serve q w = (Raise e, w).
Proof.
  intros Hparameters Hsecret Hjson.
  destruct q as [parameters given|parameters given|parameters given|
                 parameters disk_name instance_id given];
    simpl in *; subst;
    unfold describe_operation, run_instances, terminate_instances,
      attach_disk, bind, lift; simpl; by rewrite Hjson.
Qed.

(** ** Missing parameters *)

(** X3: with the manager's secret, a request that lacks a required
    parameter is answered with ['no ' + param] for the first one that is
    missing, in the order [infrastructure], [num_vms] for a run request,
    and the world is left as it was.  [num_vms] is not looked at by
    [terminate_instances]. *)
Theorem missing_parameter_is_reported (parameters secret checked : value)
    (w : world B R) :
  validate_args parameters secret = Ok (checked, self_secret) ->
  (has_parameter PARAM_OPERATION_ID checked = Ok false ->
   describe_operation parameters secret w =
     (Ok (VDict {[ "success" := VBool false;
                   "reason" := VStr "no operation_id" ]}), w)) ∧
  (has_parameter PARAM_INFRASTRUCTURE checked = Ok false ->
   run_instances parameters secret w =
     (Ok (VDict {[ "success" := VBool false;
                   "reason" := VStr "no infrastructure" ]}), w) ∧
   terminate_instances parameters secret w =
     (Ok (VDict {[ "success" := VBool false;
                   "reason" := VStr "no infrastructure" ]}), w)) ∧
  (has_parameter PARAM_INFRASTRUCTURE checked = Ok true ->
   has_parameter PARAM_NUM_VMS checked = Ok false ->
   run_instances parameters secret w =
     (Ok (VDict {[ "success" := VBool false;
                   "reason" := VStr "no num_vms" ]}), w)).
Proof.
  intros Hargs. split; [|split].
  - intros Hmissing. unfold describe_operation, bind, lift.
    rewrite Hargs, String.eqb_refl. simpl. by rewrite Hmissing.
  - intros Hmissing. split.
    + unfold run_instances, bind, lift.
      rewrite Hargs, String.eqb_refl. simpl. by rewrite Hmissing.
    + unfold terminate_instances, bind, lift.
      rewrite Hargs, String.eqb_refl. simpl. by rewrite Hmissing.
  - intros Hpresent Hmissing. unfold run_instances, bind, lift.
    rewrite Hargs, String.eqb_refl. simpl.
    by rewrite Hpresent, Hmissing.
Qed.


(** ** Submissions and the agent's own validation *)

(** X4: when the agent's [assert_required_parameters] raises a
    configuration error, a run or terminate submission that passed the
    manager's own checks is answered with [success] = [False] and the text
    of the error as [reason]; any other error of that call is raised to
    the caller.  Either way the store, the random source and the threads
    are as they were: no operation id is drawn and no record is created. *)
Theorem agent_rejects_submission (parameters secret checked : value)
    (infrastructure : value) (a : agent B) (w : world B R) (e : exn)
    (b : B) :
  validate_args parameters secret = Ok (checked, self_secret) ->
  has_parameter PARAM_INFRASTRUCTURE checked = Ok true ->
  getitem checked PARAM_INFRASTRUCTURE = Ok infrastructure ->
  create_agent infrastructure = Ok a ->
  (∀ (num_vms : value) (n : Z),
     has_parameter PARAM_NUM_VMS checked = Ok true ->
     getitem checked PARAM_NUM_VMS = Ok num_vms ->
     int num_vms = Ok n -> 0 < n ->
     assert_required_parameters a checked OPERATION_RUN (backend w) =
       (Raise e, b) ->
     run_instances parameters secret w =
       (if is_agent_configuration e
        then Ok (VDict {[ "success" := VBool false;
                          "reason" := VStr (str e) ]})
        else Raise e, set_backend b w)) ∧
  (assert_required_parameters a checked OPERATION_TERMINATE (backend w) =
     (Raise e, b) ->
   terminate_instances parameters secret w =
     (if is_agent_configuration e
      then Ok (VDict {[ "success" := VBool false;
                        "reason" := VStr (str e) ]})
      else Raise e, set_backend b w)).
Proof.
  intros Hargs Hhas Hget Hagent. split.
  - intros num_vms n Hhas_n Hget_n Hint Hpos Hassert.
    unfold run_instances, bind, lift, try_except, call.
    rewrite Hargs, String.eqb_refl. simpl.
    rewrite Hhas, Hhas_n, Hget_n, Hint.
    destruct (n <=? 0) eqn:Hle; [apply Z.leb_le in Hle; lia|].
    rewrite Hget, Hagent, Hassert.
    by destruct (is_agent_configuration e).
  - intros Hassert.
    unfold terminate_instances, bind, lift, try_except, call.
    rewrite Hargs, String.eqb_refl. simpl.
    rewrite Hhas, Hget, Hagent, Hassert.
    by destruct (is_agent_configuration e).
Qed.

(** X5: in non-blocking mode an accepted submission returns at once.  It
    draws one operation id, puts the pending record under it, starts one
    thread for the worker and answers with the operation id; of the
    agent's calls only [assert_required_parameters] has been made. *)
Theorem submission_returns_at_once (parameters secret checked : value)
    (infrastructure : value) (a : agent B) (w : world B R) (b : B)
    (operation_id : string) (r : R) :
  self_blocking = false ->
  validate_args parameters secret = Ok (checked, self_secret) ->
  has_parameter PARAM_INFRASTRUCTURE checked = Ok true ->
  getitem checked PARAM_INFRASTRUCTURE = Ok infrastructure ->
  create_agent infrastructure = Ok a ->
  get_random_alphanumeric (random w) = (operation_id, r) ->
  (∀ (num_vms : value) (n : Z),
     has_parameter PARAM_NUM_VMS checked = Ok true ->
     getitem checked PARAM_NUM_VMS = Ok num_vms ->
     int num_vms = Ok n -> 0 < n ->
     assert_required_parameters a checked OPERATION_RUN (backend w) =
       (Ok tt, b) ->
     run_instances parameters secret w =
       (Ok (VDict {[ "success" := VBool true; "reason" := VStr "none";
                     "operation_id" := VStr operation_id ]}),
        World (<[operation_id := run_record]> (operation_ids w))
          (puts w ++ [(operation_id, run_record)]) b r
          (threads w ++ [Started (SpawnVms a n checked operation_id)]))) ∧
  (assert_required_parameters a checked OPERATION_TERMINATE (backend w) =
     (Ok tt, b) ->
   terminate_instances parameters secret w =
     (Ok (VDict {[ "success" := VBool true; "reason" := VStr "none";
                   "operation_id" := VStr operation_id ]}),
      World (<[operation_id := kill_record]> (operation_ids w))
        (puts w ++ [(operation_id, kill_record)]) b r
        (threads w ++ [Started (KillVms a checked operation_id)]))).
Proof.
  intros Hmode Hargs Hhas Hget Hagent Hrandom. split.
  - intros num_vms n Hhas_n Hget_n Hint Hpos Hassert.
    unfold run_instances, bind, lift, try_except, call, random_alphanumeric.
    rewrite Hargs, String.eqb_refl. simpl.
    rewrite Hhas, Hhas_n, Hget_n, Hint.
    destruct (n <=? 0) eqn:Hle; [apply Z.leb_le in Hle; lia|].
    rewrite Hget, Hagent, Hassert. cbn [ret set_backend random].
    rewrite Hrandom, Hmode.
    unfold PersistentDictionary.put, start_new_thread, ret.
    cbn [operation_ids puts backend random threads].
    reflexivity.
  - intros Hassert.
    unfold terminate_instances, bind, lift, try_except, call,
      random_alphanumeric.
    rewrite Hargs, String.eqb_refl. simpl.
    rewrite Hhas, Hget, Hagent, Hassert. cbn [ret set_backend random].
    rewrite Hrandom, Hmode.
    unfold PersistentDictionary.put, start_new_thread, ret.
    cbn [operation_ids puts backend random threads].
    reflexivity.
Qed.


(** ** More on the workers *)

(** X6: on the full-success path the run worker puts the record it read
    with ['state'] set to ['success'] and ['vm_info'] made of the three
    sequences [run_instances] returned, taken in the order instance ids,
    public IPs, private IPs.  It assigns neither ['success'] nor
    ['reason'], which keep what the record read had. *)
Theorem full_success_is_recorded (a : agent B) (num_vms : Z)
    (parameters : value) (operation_id : string) (record : dict)
    (w w1 : world B R)
    (active_public_ips active_private_ips active_instances : list string)
    (security_configured : value) (b2 b3 : B)
    (ids public_ips private_ips : list string) :
  operation_ids w !! operation_id = Some (VDict record) ->
  describe_vms a parameters w =
    (Ok (active_public_ips, active_private_ips, active_instances), w1) ->
  configure_instance_security a parameters (backend w1) =
    (Ok security_configured, b2) ->
  BaseAgent.run_instances a num_vms parameters security_configured false b2 =
    (Ok (ids, public_ips, private_ips), b3) ->
  let final : dict :=
    <["vm_info" :=
        VDict {[ "public_ips" := VList public_ips;
                 "private_ips" := VList private_ips;
                 "instance_ids" := VList ids ]}]>
      (<["state" := VStr "success"]> record) in
  spawn_vms a num_vms parameters operation_id w =
    PersistentDictionary.put operation_id (VDict final)
      (set_backend b3 w1) ∧
  final !! "success" = record !! "success" ∧
  final !! "reason" = record !! "reason".
Proof.
  intros Hrecord Hbaseline Hconfigure Hrun final.
  split; [|split; unfold final; by rewrite !lookup_insert_ne].
  unfold spawn_vms, spawn_vms_from, spawn_vms_launch. monad.
  unfold PersistentDictionary.lookup. rewrite Hrecord. simpl.
  rewrite Hbaseline, Hconfigure. simpl. rewrite Hrun. reflexivity.
Qed.

(** X7: when [configure_instance_security] raises a configuration or
    runtime error the run worker does not call [run_instances]: it takes
    the inventory again on the backend as the failed call left it and
    records the outcome as it does for a failed launch. *)
Theorem security_failure_is_reconciled (a : agent B) (num_vms : Z)
    (parameters : value) (operation_id : string) (record : dict)
    (w w1 w4 : world B R)
    (active_public_ips active_private_ips active_instances : list string)
    (b2 : B) (e : exn)
    (public_ips private_ips instance_ids : list string) :
  operation_ids w !! operation_id = Some (VDict record) ->
  describe_vms a parameters w =
    (Ok (active_public_ips, active_private_ips, active_instances), w1) ->
  configure_instance_security a parameters (backend w1) = (Raise e, b2) ->
  is_agent_configuration e || is_agent_runtime e = true ->
  describe_vms a parameters (set_backend b2 w1) =
    (Ok (public_ips, private_ips, instance_ids), w4) ->
  spawn_vms a num_vms parameters operation_id w =
    PersistentDictionary.put operation_id
      (VDict
         (<["reason" := VStr (str e)]>
            (<["success" := VBool false]>
               (match diff a public_ips active_public_ips with
                | _ :: _ =>
                    <["vm_info" :=
                        vm_info (diff a public_ips active_public_ips)
                          (diff a private_ips active_private_ips)
                          (diff a instance_ids active_instances)]>
                      (<["state" := VStr "success"]> record)
                | [] => <["state" := VStr "failed"]> record
                end)))) w4.
Proof.
  intros Hrecord Hbaseline Hconfigure Hclass Hagain.
  unfold spawn_vms, spawn_vms_from, spawn_vms_launch. monad.
  unfold PersistentDictionary.lookup. rewrite Hrecord. simpl.
  rewrite Hbaseline, Hconfigure, Hclass, Hagain.
  destruct (diff a public_ips active_public_ips); reflexivity.
Qed.

(** X8: when [terminate_instances] returns, the terminate worker puts the
    record it read with ['state'] set to ['success'] and nothing else
    changed: ['reason'] keeps the text of the submission and no ['vm_info']
    is added. *)
Theorem kill_success_is_recorded (a : agent B) (parameters : value)
    (operation_id : string) (record : dict) (w : world B R) (b : B) :
  operation_ids w !! operation_id = Some (VDict record) ->
  BaseAgent.terminate_instances a parameters (backend w) = (Ok tt, b) ->
  kill_vms a parameters operation_id w =
    PersistentDictionary.put operation_id
      (VDict (<["state" := VStr "success"]> record)) (set_backend b w) ∧
  (∀ key, key ≠ "state" ->
          (<["state" := VStr "success"]> record) !! key = record !! key).
Proof.
  intros Hrecord Hterminate. split.
  - unfold kill_vms, kill_vms_from. monad.
    unfold PersistentDictionary.lookup. rewrite Hrecord. simpl.
    rewrite Hterminate. reflexivity.
  - intros key Hkey. by rewrite lookup_insert_ne.
Qed.

(** X9: a worker works on its own record only.  Whatever the agent does,
    the run worker and the terminate worker leave every other record of
    the store, the random source and the threads as they were, and put at
    most one record, under their own operation id. *)
Theorem worker_touches_its_record_only (a : agent B) (num_vms : Z)
    (parameters : value) (operation_id : string) (w w' : world B R) :
  w' = (spawn_vms a num_vms parameters operation_id w).2 ∨
  w' = (kill_vms a parameters operation_id w).2 ->
  random w' = random w ∧
  threads w' = threads w ∧
  (∀ k, k ≠ operation_id -> operation_ids w' !! k = operation_ids w !! k) ∧
  (puts w' = puts w ∧ operation_ids w' = operation_ids w ∨
   ∃ final, puts w' = puts w ++ [(operation_id, final)] ∧
            operation_ids w' = <[operation_id := final]> (operation_ids w)).
Proof.
  intros Hw'.
  assert (∃ t, task_id t = operation_id ∧
               w' = (bind (fetch t) (resume t) w).2) as (t & <- & ->).
  { destruct Hw' as [-> | ->].
    - by exists (SpawnVms a num_vms parameters operation_id).
    - by exists (KillVms a parameters operation_id). }
  destruct (inline_worker_effect t w)
    as (b & [(e & ->) | (final & _ & ->)]); simpl.
  - repeat split; auto.
  - repeat split; [by intros k Hk; rewrite lookup_insert_ne|].
    right. by exists final.
Qed.


(** ** Blocking mode *)

(** X10: in blocking mode a terminate submission whose worker raises (the
    agent's [terminate_instances] raised something other than a runtime
    error) raises that error to the caller.  The pending record it put is
    left in the store, under an operation id the caller was never given,
    and no thread is started. *)
Theorem blocking_failure_leaves_pending_record (parameters secret : value)
    (checked infrastructure : value) (a : agent B) (w : world B R)
    (b b' : B) (operation_id : string) (r : R) (e : exn) :
  self_blocking = true ->
  validate_args parameters secret = Ok (checked, self_secret) ->
  has_parameter PARAM_INFRASTRUCTURE checked = Ok true ->
  getitem checked PARAM_INFRASTRUCTURE = Ok infrastructure ->
  create_agent infrastructure = Ok a ->
  assert_required_parameters a checked OPERATION_TERMINATE (backend w) =
    (Ok tt, b) ->
  get_random_alphanumeric (random w) = (operation_id, r) ->
  BaseAgent.terminate_instances a checked b = (Raise e, b') ->
  is_agent_runtime e = false ->
  terminate_instances parameters secret w =
    (Raise e,
     World (<[operation_id := kill_record]> (operation_ids w))
       (puts w ++ [(operation_id, kill_record)]) b' r (threads w)).
Proof.
  intros Hmode Hargs Hhas Hget Hagent Hassert Hrandom Hterminate Hclass.
  unfold terminate_instances, bind, lift, try_except, call,
    random_alphanumeric.
  rewrite Hargs, String.eqb_refl. simpl.
  rewrite Hhas, Hget, Hagent, Hassert. cbn [ret set_backend random].
  rewrite Hrandom, Hmode.
  unfold PersistentDictionary.put, kill_vms, kill_vms_from, bind,
    try_except, call, PersistentDictionary.get, PersistentDictionary.lookup.
  cbn [operation_ids puts backend random threads].
  rewrite lookup_insert_eq. unfold set_backend.
  cbn [operation_ids puts backend random threads].
  by rewrite Hterminate, Hclass.
Qed.

(** X11: in blocking mode a run submission returns once its worker has
    ended.  When the baseline, the security setup and the launch succeed,
    the caller gets the operation id and the store already holds the
    final record: ['state'] = ['success'], ['success'] = [True], ['reason']
    still 'received run request', and ['vm_info'] made of what the launch
    returned.  No thread is started. *)
Theorem blocking_run_ends_with_final_record (parameters secret : value)
    (checked infrastructure num_vms : value) (n : Z) (a : agent B)
    (w : world B R) (b b1 b2 b3 : B) (operation_id : string) (r : R)
    (baseline : list string * list string * list string)
    (security_configured : value)
    (ids public_ips private_ips : list string) :
  self_blocking = true ->
  validate_args parameters secret = Ok (checked, self_secret) ->
  has_parameter PARAM_INFRASTRUCTURE checked = Ok true ->
  has_parameter PARAM_NUM_VMS checked = Ok true ->
  getitem checked PARAM_NUM_VMS = Ok num_vms ->
  int num_vms = Ok n -> 0 < n ->
  getitem checked PARAM_INFRASTRUCTURE = Ok infrastructure ->
  create_agent infrastructure = Ok a ->
  assert_required_parameters a checked OPERATION_RUN (backend w) =
    (Ok tt, b) ->
  get_random_alphanumeric (random w) = (operation_id, r) ->
  describe_instances a checked b = (Ok baseline, b1) ->
  configure_instance_security a checked b1 = (Ok security_configured, b2) ->
  BaseAgent.run_instances a n checked security_configured false b2 =
    (Ok (ids, public_ips, private_ips), b3) ->
  let final :=
    VDict {[ "success" := VBool true;
             "reason" := VStr "received run request";
             "state" := VStr "success";
             "vm_info" :=
               VDict {[ "public_ips" := VList public_ips;
                        "private_ips" := VList private_ips;
                        "instance_ids" := VList ids ]} ]} in
  run_instances parameters secret w =
    (Ok (VDict {[ "success" := VBool true; "reason" := VStr "none";
                  "operation_id" := VStr operation_id ]}),
     World (<[operation_id := final]> (operation_ids w))
       (puts w ++ [(operation_id, run_record); (operation_id, final)])
       b3 r (threads w)).
Proof.
  intros Hmode Hargs Hhas Hhas_n Hget_n Hint Hpos Hget Hagent Hassert
    Hrandom Hdescribe Hconfigure Hrun final.
  unfold run_instances, bind, lift, try_except, call, random_alphanumeric.
  rewrite Hargs, String.eqb_refl. simpl.
  rewrite Hhas, Hhas_n, Hget_n, Hint.
  destruct (n <=? 0) eqn:Hle; [apply Z.leb_le in Hle; lia|].
  rewrite Hget, Hagent, Hassert. cbn [ret set_backend random].
  rewrite Hrandom, Hmode.
  unfold PersistentDictionary.put, spawn_vms, spawn_vms_from,
    spawn_vms_launch, describe_vms, bind, try_except, call, lift, ret,
    PersistentDictionary.get, PersistentDictionary.lookup.
  cbn [operation_ids puts backend random threads set_backend].
  rewrite lookup_insert_eq. cbn [default].
  rewrite Hdescribe. destruct baseline as [[pub0 priv0] ids0].
  cbn [operation_ids puts backend random threads set_backend].
  rewrite Hconfigure.
  cbn [operation_ids puts backend random threads set_backend].
  rewrite Hrun.
  cbn [operation_ids puts backend random threads set_backend setitem
       run_record].
  unfold id, set_backend.
  cbn [setitem operation_ids puts backend random threads].
  unfold PersistentDictionary.put.
  cbn [operation_ids puts backend random threads].
  rewrite insert_insert_eq, <- app_assoc.
  reflexivity.
Qed.


(** ** Describing an operation after its worker *)

Lemma describe_operation_found (parameters secret checked : value)
    (operation_id : string) (record : value) (w : world B R) :
  validate_args parameters secret = Ok (checked, self_secret) ->
  has_parameter PARAM_OPERATION_ID checked = Ok true ->
  getitem checked PARAM_OPERATION_ID = Ok (VStr operation_id) ->
  operation_ids w !! operation_id = Some record ->
  describe_operation parameters secret w = (Ok record, w).
Proof.
  intros Hargs Hhas Hget Hrecord.
  unfold describe_operation, bind, lift, PersistentDictionary.has_key,
    PersistentDictionary.get, PersistentDictionary.lookup.
  rewrite Hargs, String.eqb_refl. simpl.
  rewrite Hhas, Hget, Hrecord. simpl. by rewrite Hrecord.
Qed.

(** X12: once a worker has returned, describing its operation with the
    manager's secret yields a record in a terminal state, ['success'] or
    ['failed'], and leaves the world as the worker left it. *)
Theorem finished_operation_is_described (a : agent B) (num_vms : Z)
    (worker_parameters : value) (operation_id : string)
    (parameters secret checked : value) (w w' : world B R) :
  spawn_vms a num_vms worker_parameters operation_id w = (Ok tt, w') ∨
  kill_vms a worker_parameters operation_id w = (Ok tt, w') ->
  validate_args parameters secret = Ok (checked, self_secret) ->
  has_parameter PARAM_OPERATION_ID checked = Ok true ->
  getitem checked PARAM_OPERATION_ID = Ok (VStr operation_id) ->
  ∃ final, terminal final ∧
           describe_operation parameters secret w' = (Ok final, w').
Proof.
  intros Hworker Hargs Hhas Hget.
  assert (∃ t, task_id t = operation_id ∧
               bind (fetch t) (resume t) w = (Ok tt, w'))
    as (t & <- & Hrun).
  { destruct Hworker as [Hw | Hw].
    - by exists (SpawnVms a num_vms worker_parameters operation_id).
    - by exists (KillVms a worker_parameters operation_id). }
  destruct (inline_worker_effect t w)
    as (b & [(e & He) | (final & Hfinal & Hput)]).
  { rewrite He in Hrun. discriminate. }
  rewrite Hput in Hrun. injection Hrun as <-.
  exists final. split; [done|].
  apply (describe_operation_found _ _ checked (task_id t)); try done.
  apply lookup_insert_eq.
Qed.

(** ** Attaching a disk *)

(** X13: [attach_disk] is outside the tracking of operations: whatever
    its arguments, it leaves the store, the random source and the threads
    as they were.  It does not check that ['infrastructure'] is present:
    with the manager's secret and a mapping without that key it raises a
    [KeyError] instead of answering 'no infrastructure'.  Otherwise it
    answers with the location the agent returned, or raises the error the
    agent raised. *)
Theorem attach_disk_outcomes (parameters disk_name instance_id secret : value)
    (w : world B R) :
  (let w' := (attach_disk parameters disk_name instance_id secret w).2 in
   operation_ids w' = operation_ids w ∧ puts w' = puts w ∧
   random w' = random w ∧ threads w' = threads w) ∧
  (∀ d : dict,
     validate_args parameters secret = Ok (VDict d, self_secret) ->
     d !! PARAM_INFRASTRUCTURE = None ->
     attach_disk parameters disk_name instance_id secret w =
       (Raise (KeyError "infrastructure"), w)) ∧
  (∀ (checked infrastructure : value) (a : agent B)
     (out : result value) (b : B),
     validate_args parameters secret = Ok (checked, self_secret) ->
     getitem checked PARAM_INFRASTRUCTURE = Ok infrastructure ->
     create_agent infrastructure = Ok a ->
     BaseAgent.attach_disk a checked disk_name instance_id (backend w) =
       (out, b) ->
     attach_disk parameters disk_name instance_id secret w =
       (match out with
        | Ok location =>
            Ok (VDict {[ "success" := VBool true; "reason" := VStr "none";
                         "location" := location ]})
        | Raise e => Raise e
        end, set_backend b w)).
Proof.
  split; [|split].
  - assert (∃ b, (attach_disk parameters disk_name instance_id secret w).2 =
                 set_backend b w) as [b ->]; [|done].
    unfold attach_disk. monad.
    repeat case_match; simplify_eq;
      first [ by eexists | by exists (backend w); rewrite set_backend_same ].
  - intros d Hargs Hmissing. unfold attach_disk, bind, lift.
    rewrite Hargs, String.eqb_refl. cbn [negb].
    unfold getitem. by rewrite Hmissing.
  - intros checked infrastructure a out b Hargs Hget Hagent Hattach.
    unfold attach_disk, bind, lift, call.
    rewrite Hargs, String.eqb_refl. simpl.
    rewrite Hget, Hagent, Hattach.
    destruct out as [location|e]; reflexivity.
Qed.


(** ** What holds of the store whatever the random source does *)

Lemma insert_record_cases (store : gmap string value) (k k' : string)
    (v record : value) :
  <[k := v]> store !! k' = Some record ->
  store !! k' = Some record ∨ record = v.
Proof.
  intros [[_ <-] | [_ Hold]]%lookup_insert_Some; [by right | by left].
Qed.

Lemma insert_keeps_keys (store : gmap string value) (k k' : string)
    (v : value) :
  is_Some (store !! k') -> is_Some (<[k := v]> store !! k').
Proof.
  intros Hsome. apply lookup_insert_is_Some.
  destruct (decide (k = k')); [by left | by right].
Qed.

(** After the pending record is put, a submission leaves the backend
    changed at most (the inline worker raised), or has the worker's one
    record put as well, or has started the thread. *)
Lemma submit_effect (t : task B) (response : value) (w1 : world B R) :
  let w' :=
    (bind (if self_blocking then bind (fetch t) (resume t)
           else start_new_thread t)
       (λ _, ret response) w1).2 in
  (∃ b', w' = set_backend b' w1) ∨
  (∃ b' final, terminal final ∧
     w' = (PersistentDictionary.put (task_id t) final
             (set_backend b' w1)).2) ∨
  w' = set_threads (threads w1 ++ [Started t]) w1.
Proof.
  unfold bind at 1. destruct self_blocking.
  - destruct (inline_worker_effect t w1)
      as (b' & [(e & ->) | (final & Hfinal & ->)]).
    + left. by exists b'.
    + right. left. by exists b', final.
  - right. right. reflexivity.
Qed.

(** What one step does to the records and to the threads. *)
Lemma step_store (w w' : world B R) :
  step w w' ->
  (∀ k record, operation_ids w' !! k = Some record ->
     operation_ids w !! k = Some record ∨ pending record ∨ terminal record) ∧
  (∀ k, is_Some (operation_ids w !! k) -> is_Some (operation_ids w' !! k)) ∧
  (∀ th, th ∈ threads w' ->
     thread_id th ∈ thread_id <$> threads w ∨
     is_Some (operation_ids w' !! thread_id th)).
Proof.
  intros [q w0 | w0 w0' Hthread].
  - destruct (serve_cases q w0)
      as [(b & ->) | (b & t & record & r & Hpending & _ & ->)].
    { repeat split; [by left|done|].
      intros th Hth. left. by apply list_elem_of_fmap_2. }
    lazymatch goal with
    | |- context [bind _ (λ _, ret ?response) ?w1] =>
        destruct (submit_effect t response w1)
          as [(b' & ->) | [(b' & final & Hfinal & ->) | ->]]
    end;
      cbn [fst snd PersistentDictionary.put operation_ids threads
           set_backend set_threads].
    + repeat split.
      * intros k rec [Hold | ->]%insert_record_cases; auto.
      * intros k. apply insert_keeps_keys.
      * intros th Hth. left. by apply list_elem_of_fmap_2.
    + repeat split.
      * intros k rec [[Hold | ->]%insert_record_cases | ->]
          %insert_record_cases; auto.
      * intros k Hk. by do 2 apply insert_keeps_keys.
      * intros th Hth. left. by apply list_elem_of_fmap_2.
    + repeat split.
      * intros k rec [Hold | ->]%insert_record_cases; auto.
      * intros k. apply insert_keeps_keys.
      * intros th [Hth | ->%list_elem_of_singleton]%elem_of_app.
        -- left. by apply list_elem_of_fmap_2.
        -- right. simpl. rewrite lookup_insert_eq. by eexists.
  - destruct Hthread as [t ts1 ts2 w1 Hts | t status_info ts1 ts2 w1 Hts].
    + unfold fetch, PersistentDictionary.get.
      cbn [PersistentDictionary.lookup set_threads operation_ids threads].
      repeat split; [by left|done|].
      intros th Hth. left. rewrite Hts, fmap_app, fmap_cons.
      apply elem_of_app in Hth as [Hth | [-> | Hth]%elem_of_cons];
        apply elem_of_app.
      * left. by apply list_elem_of_fmap_2.
      * right. by left.
      * right. right. by apply list_elem_of_fmap_2.
    + assert (Hsub : ∀ th, th ∈ ts1 ++ ts2 ->
                thread_id th ∈ thread_id <$> threads w1).
      { intros th Hth. apply list_elem_of_fmap_2. rewrite Hts.
        apply elem_of_app in Hth as [Hth | Hth]; apply elem_of_app;
          [by left | right; by right]. }
      destruct (resume_effect t status_info (set_threads (ts1 ++ ts2) w1))
        as (b & [(e & ->) | (final & Hfinal & ->)]);
        cbn [fst snd PersistentDictionary.put operation_ids threads
             set_backend set_threads].
      * repeat split; [by left|done|]. intros th Hth. left. by apply Hsub.
      * repeat split.
        -- intros k rec [Hold | ->]%insert_record_cases; auto.
        -- intros k. apply insert_keeps_keys.
        -- intros th Hth. left. by apply Hsub.
Qed.

(** X14: whatever identifiers the random source hands out, every record
    in the store of a world reached from an empty store is a dictionary
    whose ['state'] is ['pending'], ['success'] or ['failed']; every thread
    finds a record under its operation id; and no step removes a key from
    the store. *)
Theorem store_keeps_well_formed_records (b : B) (r : R) (w : world B R) :
  reachable b r w ->
  (∀ k record, operation_ids w !! k = Some record ->
     pending record ∨ terminal record) ∧
  (∀ th, th ∈ threads w -> is_Some (operation_ids w !! thread_id th)) ∧
  (∀ w', step w w' ->
     ∀ k, is_Some (operation_ids w !! k) -> is_Some (operation_ids w' !! k)).
Proof.
  intros Hreach.
  split; [|split]; [| |by intros w' Hstep; apply step_store].
  - induction Hreach as [|w w' _ IH Hstep].
    + intros k record Hk. simpl in Hk. by rewrite lookup_empty in Hk.
    + intros k record Hk.
      destruct (step_store w w' Hstep) as (Hrecords & _ & _).
      destruct (Hrecords k record Hk) as [Hold | Hnew]; [|done].
      by apply (IH k).
  - induction Hreach as [|w w' _ IH Hstep].
    + intros th Hth. simpl in Hth. by apply elem_of_nil in Hth.
    + intros th Hth.
      destruct (step_store w w' Hstep) as (_ & Hkeys & Hthreads).
      destruct (Hthreads th Hth) as [Hold | Hnew]; [|done].
      apply list_elem_of_fmap_1 in Hold as (th0 & -> & Hth0).
      apply Hkeys. by apply IH.
Qed.


(** ** Where the worker runs *)

(** X15: the mode decides where the worker runs.  In blocking mode no
    request starts a thread.  In non-blocking mode a request never runs a
    worker itself: it touches the backend at most, or it puts one record,
    a pending one, under the operation id it drew and starts one thread
    for it. *)
Theorem mode_decides_where_the_worker_runs (q : request) (w : world B R) :
  (self_blocking = true -> threads (serve q w).2 = threads w) ∧
  (self_blocking = false ->
   (∃ b, (serve q w).2 = set_backend b w) ∨
   (∃ b t record r,
      pending record ∧
      get_random_alphanumeric (random w) = (task_id t, r) ∧
      (serve q w).2 =
        World (<[task_id t := record]> (operation_ids w))
          (puts w ++ [(task_id t, record)]) b r
          (threads w ++ [Started t]))).
Proof.
  split; intros Hmode.
  - destruct (serve_cases q w)
      as [(b & ->) | (b & t & record & r & _ & _ & ->)]; [done|].
    rewrite Hmode. unfold bind at 1.
    lazymatch goal with
    | |- context [bind (fetch t) (resume t) ?w1] =>
        destruct (inline_worker_effect t w1)
          as (b' & [(e & ->) | (final & _ & ->)])
    end; reflexivity.
  - destruct (serve_cases q w)
      as [(b & Hb) | (b & t & record & r & Hpending & Hrandom & Hw')].
    { left. by exists b. }
    right. exists b, t, record, r. split; [done|]. split; [done|].
    rewrite Hw', Hmode. reflexivity.
Qed.

End Manager.

(** * Examples on the scriptable cloud *)

Local Abbreviation serve_with blocking a :=
  (serve FakeCloud.has_parameter FakeCloud.get_random_alphanumeric
     FakeCloud.json_loads Python2.int blocking "secret"
     (FakeCloud.create_agent a)).

Local Abbreviation step_with blocking a :=
  (step FakeCloud.has_parameter FakeCloud.get_random_alphanumeric
     FakeCloud.json_loads Python2.int blocking "secret"
     (FakeCloud.create_agent a)).

Example int_of_padded_literal : Python2.int (VStr " 42 ") = Ok 42.
Proof. reflexivity. Qed.

Example int_of_spaced_sign : Python2.int (VStr "- 3") = Ok (-3).
Proof. reflexivity. Qed.

Example int_of_word :
  Python2.int (VStr " two") =
  Raise (ValueError "invalid literal for int() with base 10: 'two'").
Proof. reflexivity. Qed.

(** [int(-2.5)] and [int(True)] *)
Example int_of_float :
  Python2.int (VFloat (S754_finite true 5 (-1))) = Ok (-2).
Proof. reflexivity. Qed.

Example int_of_bool : Python2.int (VBool true) = Ok 1.
Proof. reflexivity. Qed.

Example int_of_empty_string :
  Python2.int (VStr EmptyString) =
  Raise (ValueError "invalid literal for int() with base 10: ''").
Proof. reflexivity. Qed.

(** A run request served in blocking mode by a healthy agent ends with the
    record of the two sequences the agent returned. *)
Example blocking_run_succeeds :
  let out := serve_with true FakeCloud.healthy
               (RunInstances run_request (VStr "secret"))
               (fresh_world ["abc"]) in
  out.1 = Ok (VDict {[ "success" := VBool true; "reason" := VStr "none";
                       "operation_id" := VStr "abc" ]}) ∧
  operation_ids out.2 !! "abc" =
    Some (VDict {[ "success" := VBool true;
                   "reason" := VStr "received run request";
                   "state" := VStr "success";
                   "vm_info" := vm_info ["2.2.2.2"] ["10.0.0.2"] ["i-b"] ]}).
Proof. by vm_compute. Qed.

(** C6, at a request with a wrong secret. *)
Lemma bad_secret_is_rejected_witness :
  serve_with false FakeCloud.healthy
    (RunInstances run_request (VStr "guess")) (fresh_world ["abc"]) =
  (Ok (VDict {[ "success" := VBool false; "reason" := VStr "bad secret" ]}),
   fresh_world ["abc"]).
Proof.
  apply (bad_secret_is_rejected _ _ _ _ _ _ _
           (RunInstances run_request (VStr "guess"))
           {[ "infrastructure" := VStr "test"; "num_vms" := VStr "2" ]}
           "guess").
  - reflexivity.
  - discriminate.
  - left. reflexivity.
Defined.

(** C9, at a record that is in the store. *)
Lemma describe_operation_read_only_witness :
  let describe :=
    describe_operation FakeCloud.has_parameter FakeCloud.json_loads "secret"
      (VDict {[ "operation_id" := VStr "abc" ]}) (VStr "secret") in
  (describe (set_backend [] (world_with run_record))).1 =
  (describe (world_with run_record)).1 ∧
  (describe (world_with run_record)).1 = Ok run_record.
Proof.
  destruct (describe_operation_read_only FakeCloud.has_parameter
              FakeCloud.json_loads "secret"
              (VDict {[ "operation_id" := VStr "abc" ]}) (VStr "secret")
              (world_with run_record)) as (_ & _ & Hstore & Hrecord).
  split.
  - apply Hstore. reflexivity.
  - apply (Hrecord {[ "operation_id" := VStr "abc" ]} "abc");
      reflexivity.
Defined.

(** C5: a count that is not a number is not answered with 'bad vm count';
    the error of the conversion reaches the caller. *)
Lemma non_numeric_vm_count_raises :
  let parameters :=
    VDict {[ "infrastructure" := VStr "test"; "num_vms" := VStr "two" ]} in
  let out := serve_with false FakeCloud.healthy
               (RunInstances parameters (VStr "secret"))
               (fresh_world ["abc"]) in
  out = (Raise (ValueError "invalid literal for int() with base 10: 'two'"),
         fresh_world ["abc"]) ∧
  ¬ ∃ response, out.1 = Ok response.
Proof.
  split; [by vm_compute|]. intros [response Hresponse].
  vm_compute in Hresponse. discriminate.
Qed.

(** C5 (amended), at a count of zero. *)
Lemma bad_vm_count_witness :
  run_instances FakeCloud.has_parameter FakeCloud.get_random_alphanumeric
    FakeCloud.json_loads Python2.int false "secret"
    (FakeCloud.create_agent FakeCloud.healthy)
    (VDict {[ "infrastructure" := VStr "test"; "num_vms" := VStr "0" ]})
    (VStr "secret") (fresh_world ["abc"]) =
  (Ok (VDict {[ "success" := VBool false; "reason" := VStr "bad vm count" ]}),
   fresh_world ["abc"]).
Proof.
  refine (proj1 (bad_vm_count FakeCloud.has_parameter
                  FakeCloud.get_random_alphanumeric FakeCloud.json_loads
                  Python2.int false "secret"
                  (FakeCloud.create_agent FakeCloud.healthy)
                  (VDict {[ "infrastructure" := VStr "test";
                            "num_vms" := VStr "0" ]})
                  (VStr "secret")
                  (VDict {[ "infrastructure" := VStr "test";
                            "num_vms" := VStr "0" ]})
                  (VStr "0") (fresh_world ["abc"]) _ _ _ _) 0 _ _);
    [reflexivity..|lia].
Defined.

(** C8, at an agent that cannot list its instances and whose launch
    succeeds. *)
Lemma baseline_defaults_to_empty_witness :
  describe_vms FakeCloud.blind run_request (world_with run_record) =
    (Ok ([], [], []), world_with run_record) ∧
  spawn_vms FakeCloud.blind 2 run_request "abc" (world_with run_record) =
    (Ok tt,
     World
       {[ "abc" :=
            VDict {[ "success" := VBool true;
                     "reason" := VStr "received run request";
                     "state" := VStr "success";
                     "vm_info" :=
                       VDict {[ "public_ips" := VList ["2.2.2.2"];
                                "private_ips" := VList ["10.0.0.2"];
                                "instance_ids" := VList ["i-b"] ]} ]} ]}
       [("abc", run_record);
        ("abc",
         VDict {[ "success" := VBool true;
                  "reason" := VStr "received run request";
                  "state" := VStr "success";
                  "vm_info" :=
                    VDict {[ "public_ips" := VList ["2.2.2.2"];
                             "private_ips" := VList ["10.0.0.2"];
                             "instance_ids" := VList ["i-b"] ]} ]})]
       [FakeCloud.i_a; FakeCloud.i_b] [] []).
Proof.
  destruct (baseline_defaults_to_empty FakeCloud.blind 2 run_request "abc"
              {[ "success" := VBool true;
                 "reason" := VStr "received run request";
                 "state" := VStr "pending";
                 "vm_info" := VNone ]}
              (world_with run_record)
              (AgentRuntimeException "connection refused") [FakeCloud.i_a]
              eq_refl eq_refl eq_refl) as [Hbaseline [Hlaunched _]].
  split; [exact Hbaseline|].
  exact (Hlaunched (VBool true) [FakeCloud.i_a]
           [FakeCloud.i_a; FakeCloud.i_b] ["i-b"] ["2.2.2.2"] ["10.0.0.2"]
           eq_refl eq_refl).
Defined.

(** The baseline cannot be taken and the launch fails after one instance
    has come up: the record has the reason of the launch, and the instance
    is the whole difference. *)
Example failed_baseline_then_failed_launch :
  let w := set_backend [] (world_with run_record) in
  describe_vms FakeCloud.waking run_request w = (Ok ([], [], []), w) ∧
  spawn_vms FakeCloud.waking 2 run_request "abc" w =
    PersistentDictionary.put "abc"
      (VDict {[ "success" := VBool false;
                "reason" := VStr "quota exceeded";
                "state" := VStr "success";
                "vm_info" :=
                  VDict {[ "public_ips" := VList ["2.2.2.2"];
                           "private_ips" := VList ["10.0.0.2"];
                           "instance_ids" := VList ["i-b"] ]} ]})
      (set_backend [FakeCloud.i_b] w).
Proof. by vm_compute. Qed.

(** C1, at a launch that brings one instance up and fails. *)
Lemma partial_failure_is_reconciled_witness :
  spawn_vms FakeCloud.partial 2 run_request "abc" (world_with run_record) =
  PersistentDictionary.put "abc"
    (VDict {[ "success" := VBool false;
              "reason" := VStr "quota exceeded";
              "state" := VStr "success";
              "vm_info" :=
                VDict {[ "public_ips" := VList ["2.2.2.2"];
                         "private_ips" := VList ["10.0.0.2"];
                         "instance_ids" := VList ["i-b"] ]} ]})
    (set_backend [FakeCloud.i_a; FakeCloud.i_b] (world_with run_record)).
Proof.
  refine (proj1 (partial_failure_is_reconciled FakeCloud.partial 2
                   run_request "abc"
                   {[ "success" := VBool true;
                      "reason" := VStr "received run request";
                      "state" := VStr "pending";
                      "vm_info" := VNone ]}
                   (world_with run_record) (world_with run_record)
                   (set_backend [FakeCloud.i_a; FakeCloud.i_b]
                      (world_with run_record))
                   ["1.1.1.1"] ["10.0.0.1"] ["i-a"] (VBool true)
                   [FakeCloud.i_a] [FakeCloud.i_a; FakeCloud.i_b]
                   (AgentRuntimeException "quota exceeded")
                   ["1.1.1.1"; "2.2.2.2"] ["10.0.0.1"; "10.0.0.2"]
                   ["i-a"; "i-b"] _ _ _ _ _ _)); reflexivity.
Defined.



(** C10, at a termination that fails with a runtime error. *)
Lemma kill_failure_keeps_success_witness :
  kill_vms FakeCloud.stubborn kill_request "abc" (world_with kill_record) =
  PersistentDictionary.put "abc"
    (VDict {[ "success" := VBool true;
              "reason" := VStr "instance not found";
              "state" := VStr "failed" ]})
    (world_with kill_record).
Proof.
  refine (proj1 (kill_failure_keeps_success FakeCloud.stubborn kill_request
                   "abc"
                   {[ "success" := VBool true;
                      "reason" := VStr "received kill request";
                      "state" := VStr "pending" ]}
                   (world_with kill_record) "instance not found"
                   [FakeCloud.i_a] _ _)); reflexivity.
Defined.

(** C4: a configuration error raised by [terminate_instances] leaves the
    terminate worker, and the record stays pending. *)
Lemma configuration_error_escapes_kill_vms :
  kill_vms FakeCloud.unconfigured kill_request "abc"
    (world_with kill_record) =
  (Raise (AgentConfigurationException "bad credentials"),
   world_with kill_record) ∧
  operation_ids (world_with kill_record) !! "abc" = Some kill_record ∧
  state kill_record = Some (VStr "pending").
Proof. by vm_compute. Qed.

(** C4 (amended), at a launch that fails with a runtime error. *)
Lemma agent_errors_are_absorbed_witness :
  ∃ final w',
    spawn_vms FakeCloud.partial 2 run_request "abc" (world_with run_record) =
      (Ok tt, w') ∧
    operation_ids w' !! "abc" = Some final ∧ terminal final.
Proof.
  refine (proj1 (agent_errors_are_absorbed FakeCloud.partial 2 run_request
                   "abc"
                   {[ "success" := VBool true;
                      "reason" := VStr "received run request";
                      "state" := VStr "pending";
                      "vm_info" := VNone ]}
                   (world_with run_record) _) _ _ _).
  - reflexivity.
  - intros b e b' Hcall. simpl in Hcall. discriminate.
  - intros b e b' Hcall. simpl in Hcall. discriminate.
  - intros security b e b' Hcall. simpl in Hcall.
    injection Hcall as <- _. reflexivity.
Defined.

(** C3: the random source returns ["abc"] twice.  The second submission is
    accepted under ["abc"] while the store has the record of the first
    under it, and that record is replaced. *)
Lemma operation_id_is_reused :
  let w := fresh_world ["abc"; "abc"] in
  let w1 := (serve_with false FakeCloud.healthy
               (RunInstances run_request (VStr "secret")) w).2 in
  let out := serve_with false FakeCloud.healthy
               (TerminateInstances kill_request (VStr "secret")) w1 in
  operation_ids w1 !! "abc" = Some run_record ∧
  out.1 = Ok (VDict {[ "success" := VBool true; "reason" := VStr "none";
                       "operation_id" := VStr "abc" ]}) ∧
  operation_ids out.2 !! "abc" = Some kill_record.
Proof. by vm_compute. Qed.

(** C3 (amended), at an accepted run request. *)
Lemma operation_id_is_the_random_draw_witness :
  let w := fresh_world ["abc"] in
  let out := serve_with false FakeCloud.healthy
               (RunInstances run_request (VStr "secret")) w in
  ∃ operation_id record rest,
    FakeCloud.get_random_alphanumeric (random w) =
      (operation_id, random out.2) ∧
    getitem (VDict {[ "success" := VBool true; "reason" := VStr "none";
                      "operation_id" := VStr "abc" ]}) "operation_id" =
      Ok (VStr operation_id) ∧
    pending record ∧
    puts out.2 = puts w ++ (operation_id, record) :: rest ∧
    (false = false ->
     operation_ids out.2 = <[operation_id := record]> (operation_ids w)).
Proof.
  intros w out.
  apply (operation_id_is_the_random_draw FakeCloud.has_parameter
           FakeCloud.get_random_alphanumeric FakeCloud.json_loads Python2.int
           false "secret" (FakeCloud.create_agent FakeCloud.healthy)
           (RunInstances run_request (VStr "secret")) w out.2).
  - exists run_request, (VStr "secret"). left. reflexivity.
  - by vm_compute.
  - reflexivity.
Defined.

(** C2: the random source returns ["abc"] twice.  The first operation runs
    to its end and its record is terminal; the second submission puts a
    pending record under the same id, so that the record is created twice
    and leaves its terminal state. *)
Lemma reused_operation_id_restarts_record :
  let q := RunInstances run_request (VStr "secret") in
  let t := SpawnVms FakeCloud.healthy 2 run_request "abc" in
  let done :=
    VDict {[ "success" := VBool true;
             "reason" := VStr "received run request";
             "state" := VStr "success";
             "vm_info" := vm_info ["2.2.2.2"] ["10.0.0.2"] ["i-b"] ]} in
  ∃ w1 w2 w3 w4,
    step_with false FakeCloud.healthy (fresh_world ["abc"; "abc"]) w1 ∧
    step_with false FakeCloud.healthy w1 w2 ∧
    step_with false FakeCloud.healthy w2 w3 ∧
    step_with false FakeCloud.healthy w3 w4 ∧
    operation_ids w3 !! "abc" = Some done ∧
    state done = Some (VStr "success") ∧
    operation_ids w4 !! "abc" = Some run_record ∧
    state run_record = Some (VStr "pending") ∧
    puts_to "abc" w4 = [run_record; done; run_record] ∧
    ¬ lifecycle "abc" w4.
Proof.
  intros q t done. do 4 eexists.
  split; [apply (step_serve _ _ _ _ _ _ _ q)|].
  split; [apply step_thread, (step_fetch t [] []); reflexivity|].
  split; [apply step_thread, (step_resume t run_record [] []); reflexivity|].
  split; [apply (step_serve _ _ _ _ _ _ _ q)|].
  repeat split; by vm_compute.
Qed.

(** C2 (amended), at a run request served in blocking mode. *)
Lemma records_follow_the_lifecycle_witness :
  lifecycle "abc"
    (serve_with true FakeCloud.healthy
       (RunInstances run_request (VStr "secret")) (fresh_world ["abc"])).2.
Proof.
  refine (proj1 (records_follow_the_lifecycle FakeCloud.has_parameter
                   FakeCloud.get_random_alphanumeric FakeCloud.json_loads
                   Python2.int true "secret"
                   (FakeCloud.create_agent FakeCloud.healthy)
                   [FakeCloud.i_a] ["abc"] _ _) "abc").
  apply (fresh_serve _ _ _ _ _ _ _ _ _
           (RunInstances run_request (VStr "secret"))
           (fresh_world ["abc"])).
  - apply fresh_initial.
  - intros k v rest _. apply lookup_empty.
Defined.

(** * More examples on the scriptable cloud *)

Local Abbreviation fake_manager f blocking a :=
  (f FakeCloud.has_parameter FakeCloud.get_random_alphanumeric
     FakeCloud.json_loads Python2.int blocking "secret"
     (FakeCloud.create_agent a)).

(** The same for what does not convert a count. *)
Local Abbreviation fake_terminate f blocking a :=
  (f FakeCloud.has_parameter FakeCloud.get_random_alphanumeric
     FakeCloud.json_loads blocking "secret" (FakeCloud.create_agent a)).

(** X1, at parameters that are a number. *)
Lemma ill_typed_arguments_raise_witness :
  serve_with false FakeCloud.healthy
    (RunInstances (VInt 3) (VStr "guess")) (fresh_world ["abc"]) =
  (Raise (TypeError
     "Invalid data type for parameters. Must be a JSON string or a dictionary."),
   fresh_world ["abc"]).
Proof.
  apply (proj1 (fake_manager (@ill_typed_arguments_raise _ _) false
                  FakeCloud.healthy
                  (RunInstances (VInt 3) (VStr "guess"))
                  (fresh_world ["abc"]))).
  exact I.
Defined.

(** X2, at a string that does not decode, sent with a wrong secret. *)
Lemma malformed_json_raises_witness :
  serve_with false FakeCloud.healthy
    (DescribeOperation (VStr "{") (VStr "guess")) (fresh_world ["abc"]) =
  (Raise (ValueError "No JSON object could be decoded"), fresh_world ["abc"]).
Proof.
  apply (fake_manager (@malformed_json_raises _ _) false FakeCloud.healthy
           (DescribeOperation (VStr "{") (VStr "guess")) "{" "guess");
    reflexivity.
Defined.

(** X3, at a run request without [num_vms]. *)
Lemma missing_parameter_is_reported_witness :
  fake_manager (@run_instances _ _) false FakeCloud.healthy
    kill_request (VStr "secret") (fresh_world ["abc"]) =
  (Ok (VDict {[ "success" := VBool false; "reason" := VStr "no num_vms" ]}),
   fresh_world ["abc"]).
Proof.
  refine (proj2 (proj2 (fake_manager (@missing_parameter_is_reported _ _)
                          false FakeCloud.healthy kill_request
                          (VStr "secret") kill_request
                          (fresh_world ["abc"]) _)) _ _); reflexivity.
Defined.

(** X4, at an agent that wants credentials. *)
Lemma agent_rejects_submission_witness :
  fake_manager (@run_instances _ _) false FakeCloud.strict
    run_request (VStr "secret") (fresh_world ["abc"]) =
  (Ok (VDict {[ "success" := VBool false;
                "reason" := VStr "no credentials" ]}),
   fresh_world ["abc"]).
Proof.
  refine (proj1 (fake_manager (@agent_rejects_submission _ _) false
                   FakeCloud.strict run_request (VStr "secret")
                   run_request (VStr "test") FakeCloud.strict
                   (fresh_world ["abc"])
                   (AgentConfigurationException "no credentials")
                   [FakeCloud.i_a] _ _ _ _)
            (VStr "2") 2 _ _ _ _ _); reflexivity.
Defined.

(** X5, at a run request in non-blocking mode. *)
Lemma submission_returns_at_once_witness :
  fake_manager (@run_instances _ _) false FakeCloud.healthy
    run_request (VStr "secret") (fresh_world ["abc"]) =
  (Ok (VDict {[ "success" := VBool true; "reason" := VStr "none";
                "operation_id" := VStr "abc" ]}),
   World {[ "abc" := run_record ]} [("abc", run_record)] [FakeCloud.i_a] []
     [Started (SpawnVms FakeCloud.healthy 2 run_request "abc")]).
Proof.
  refine (proj1 (fake_manager (@submission_returns_at_once _ _) false
                   FakeCloud.healthy run_request (VStr "secret")
                   run_request (VStr "test") FakeCloud.healthy
                   (fresh_world ["abc"]) [FakeCloud.i_a] "abc" []
                   _ _ _ _ _ _)
            (VStr "2") 2 _ _ _ _ _); reflexivity.
Defined.

(** X6, at a launch that succeeds. *)
Lemma full_success_is_recorded_witness :
  spawn_vms FakeCloud.healthy 2 run_request "abc" (world_with run_record) =
  PersistentDictionary.put "abc"
    (VDict {[ "success" := VBool true;
              "reason" := VStr "received run request";
              "state" := VStr "success";
              "vm_info" :=
                VDict {[ "public_ips" := VList ["2.2.2.2"];
                         "private_ips" := VList ["10.0.0.2"];
                         "instance_ids" := VList ["i-b"] ]} ]})
    (set_backend [FakeCloud.i_a; FakeCloud.i_b] (world_with run_record)).
Proof.
  refine (proj1 (full_success_is_recorded FakeCloud.healthy 2 run_request
                   "abc"
                   {[ "success" := VBool true;
                      "reason" := VStr "received run request";
                      "state" := VStr "pending";
                      "vm_info" := VNone ]}
                   (world_with run_record) (world_with run_record)
                   ["1.1.1.1"] ["10.0.0.1"] ["i-a"] (VBool true)
                   [FakeCloud.i_a] [FakeCloud.i_a; FakeCloud.i_b]
                   ["i-b"] ["2.2.2.2"] ["10.0.0.2"] _ _ _ _));
    reflexivity.
Defined.

(** X7, at a security setup that fails. *)
Lemma security_failure_is_reconciled_witness :
  spawn_vms FakeCloud.insecure 2 run_request "abc" (world_with run_record) =
  PersistentDictionary.put "abc"
    (VDict {[ "success" := VBool false;
              "reason" := VStr "no such security group";
              "state" := VStr "failed";
              "vm_info" := VNone ]})
    (world_with run_record).
Proof.
  refine (security_failure_is_reconciled FakeCloud.insecure 2 run_request
            "abc"
            {[ "success" := VBool true;
               "reason" := VStr "received run request";
               "state" := VStr "pending";
               "vm_info" := VNone ]}
            (world_with run_record) (world_with run_record)
            (world_with run_record)
            ["1.1.1.1"] ["10.0.0.1"] ["i-a"] [FakeCloud.i_a]
            (AgentRuntimeException "no such security group")
            ["1.1.1.1"] ["10.0.0.1"] ["i-a"] _ _ _ _ _); reflexivity.
Defined.

(** X8, at a termination that succeeds. *)
Lemma kill_success_is_recorded_witness :
  kill_vms FakeCloud.healthy kill_request "abc" (world_with kill_record) =
  PersistentDictionary.put "abc"
    (VDict {[ "success" := VBool true;
              "reason" := VStr "received kill request";
              "state" := VStr "success" ]})
    (world_with kill_record).
Proof.
  refine (proj1 (kill_success_is_recorded FakeCloud.healthy kill_request
                   "abc"
                   {[ "success" := VBool true;
                      "reason" := VStr "received kill request";
                      "state" := VStr "pending" ]}
                   (world_with kill_record) [FakeCloud.i_a] _ _));
    reflexivity.
Defined.

(** X9, at a launch that fails half way. *)
Lemma worker_touches_its_record_only_witness :
  let w := world_with run_record in
  let w' := (spawn_vms FakeCloud.partial 2 run_request "abc" w).2 in
  random w' = random w ∧
  threads w' = threads w ∧
  (∀ k, k ≠ "abc" -> operation_ids w' !! k = operation_ids w !! k) ∧
  (puts w' = puts w ∧ operation_ids w' = operation_ids w ∨
   ∃ final, puts w' = puts w ++ [("abc", final)] ∧
            operation_ids w' = <["abc" := final]> (operation_ids w)).
Proof.
  intros w w'.
  apply (worker_touches_its_record_only FakeCloud.partial 2 run_request
           "abc" w w').
  left. reflexivity.
Defined.

(** X10, at a termination whose agent has bad credentials, in blocking
    mode. *)
Lemma blocking_failure_leaves_pending_record_witness :
  fake_terminate (@terminate_instances _ _) true FakeCloud.unconfigured
    kill_request (VStr "secret") (fresh_world ["abc"]) =
  (Raise (AgentConfigurationException "bad credentials"),
   World {[ "abc" := kill_record ]} [("abc", kill_record)] [FakeCloud.i_a]
     [] []).
Proof.
  refine (fake_terminate (@blocking_failure_leaves_pending_record _ _) true
            FakeCloud.unconfigured kill_request (VStr "secret")
            kill_request (VStr "test") FakeCloud.unconfigured
            (fresh_world ["abc"]) [FakeCloud.i_a] [FakeCloud.i_a] "abc" []
            (AgentConfigurationException "bad credentials")
            _ _ _ _ _ _ _ _ _); reflexivity.
Defined.

(** X11, at a run request in blocking mode. *)
Lemma blocking_run_ends_with_final_record_witness :
  fake_manager (@run_instances _ _) true FakeCloud.healthy
    run_request (VStr "secret") (fresh_world ["abc"]) =
  (Ok (VDict {[ "success" := VBool true; "reason" := VStr "none";
                "operation_id" := VStr "abc" ]}),
   World
     {[ "abc" :=
          VDict {[ "success" := VBool true;
                   "reason" := VStr "received run request";
                   "state" := VStr "success";
                   "vm_info" :=
                     VDict {[ "public_ips" := VList ["2.2.2.2"];
                              "private_ips" := VList ["10.0.0.2"];
                              "instance_ids" := VList ["i-b"] ]} ]} ]}
     [("abc", run_record);
      ("abc",
       VDict {[ "success" := VBool true;
                "reason" := VStr "received run request";
                "state" := VStr "success";
                "vm_info" :=
                  VDict {[ "public_ips" := VList ["2.2.2.2"];
                           "private_ips" := VList ["10.0.0.2"];
                           "instance_ids" := VList ["i-b"] ]} ]})]
     [FakeCloud.i_a; FakeCloud.i_b] [] []).
Proof.
  refine (fake_manager (@blocking_run_ends_with_final_record _ _) true
            FakeCloud.healthy run_request (VStr "secret") run_request
            (VStr "test") (VStr "2") 2 FakeCloud.healthy
            (fresh_world ["abc"]) [FakeCloud.i_a] [FakeCloud.i_a]
            [FakeCloud.i_a] [FakeCloud.i_a; FakeCloud.i_b] "abc" []
            (["1.1.1.1"], ["10.0.0.1"], ["i-a"]) (VBool true)
            ["i-b"] ["2.2.2.2"] ["10.0.0.2"]
            _ _ _ _ _ _ _ _ _ _ _ _ _ _); reflexivity.
Defined.

(** X12, at the record a run worker has just put. *)
Lemma finished_operation_is_described_witness :
  let w' := (spawn_vms FakeCloud.healthy 2 run_request "abc"
               (world_with run_record)).2 in
  ∃ final,
    terminal final ∧
    describe_operation FakeCloud.has_parameter FakeCloud.json_loads "secret"
      (VDict {[ "operation_id" := VStr "abc" ]}) (VStr "secret") w' =
    (Ok final, w').
Proof.
  intros w'.
  apply (finished_operation_is_described FakeCloud.has_parameter
           FakeCloud.json_loads "secret" FakeCloud.healthy 2 run_request
           "abc" (VDict {[ "operation_id" := VStr "abc" ]}) (VStr "secret")
           (VDict {[ "operation_id" := VStr "abc" ]})
           (world_with run_record) w').
  - left. reflexivity.
  - reflexivity.
  - reflexivity.
  - reflexivity.
Defined.

(** X13, at a mapping without ['infrastructure']. *)
Lemma attach_disk_outcomes_witness :
  attach_disk FakeCloud.json_loads "secret"
    (FakeCloud.create_agent FakeCloud.healthy)
    (VDict ∅) (VStr "disk-1") (VStr "i-a") (VStr "secret")
    (fresh_world ["abc"]) =
  (Raise (KeyError "infrastructure"), fresh_world ["abc"]).
Proof.
  refine (proj1 (proj2 (attach_disk_outcomes FakeCloud.json_loads "secret"
                          (FakeCloud.create_agent FakeCloud.healthy)
                          (VDict ∅) (VStr "disk-1") (VStr "i-a")
                          (VStr "secret") (fresh_world ["abc"]))) ∅ _ _);
    reflexivity.
Defined.

(** X14, at the world left by the first request. *)
Lemma store_keeps_well_formed_records_witness :
  pending run_record ∨ terminal run_record.
Proof.
  refine (proj1 (fake_manager (@store_keeps_well_formed_records _ _) false
                   FakeCloud.healthy [FakeCloud.i_a] ["abc"]
                   (serve_with false FakeCloud.healthy
                      (RunInstances run_request (VStr "secret"))
                      (fresh_world ["abc"])).2 _) "abc" run_record _).
  - apply (reachable_step _ _ _ _ _ _ _ _ _ (fresh_world ["abc"])).
    + apply reachable_initial.
    + apply step_serve.
  - reflexivity.
Defined.

(** X15, at a run request in blocking mode. *)
Lemma mode_decides_where_the_worker_runs_witness :
  threads (serve_with true FakeCloud.healthy
             (RunInstances run_request (VStr "secret"))
             (fresh_world ["abc"])).2 = [].
Proof.
  refine (proj1 (fake_manager (@mode_decides_where_the_worker_runs _ _) true
                   FakeCloud.healthy
                   (RunInstances run_request (VStr "secret"))
                   (fresh_world ["abc"])) _).
  reflexivity.
Defined.

End InfrastructureManager.
